(** * CSV to Kafka loader: a shallow embedding of [scripts/load_csv_to_kafka.py]

    The script reads a CSV file into a DataFrame and publishes every row as a
    JSON message on a Kafka topic.  The embedding follows the script line by
    line: Python values and strings, [json.dumps(row_dict, default=str)],
    the producer of [confluent_kafka] with its queue of delivery callbacks,
    the send loop with its [try]/[except], and [main] with its exit codes.

    What the script only calls (pandas' CSV parser, the broker) is an explicit
    environment: the file system says what [pd.read_csv] returns for a path,
    and a [Broker] record says which calls raise and what the delivery
    reports are.  Every theorem quantifies over that environment. *)

From Stdlib Require Import ZArith List Lia Bool.
From Stdlib.Strings Require Import String Ascii Byte.
Import ListNotations.

Open Scope Z_scope.

(* ================================================================= *)
(** ** Python strings, bytes and exceptions *)

(** A Python [str] is a sequence of Unicode code points. *)
Definition pystr := list Z.

(** [bytes] objects. *)
Definition pybytes := list byte.

Definition code (a : ascii) : Z := Z.of_nat (nat_of_ascii a).

Definition of_string (s : string) : pystr := map code (list_ascii_of_string s).

Fixpoint pystr_eqb (s t : pystr) : bool :=
  match s, t with
  | [], [] => true
  | c :: s', d :: t' => (c =? d) && pystr_eqb s' t'
  | _, _ => false
  end.

(** The exception classes the script can meet.  [SystemExit] derives from
    [BaseException] only; [UnicodeEncodeError] derives from [ValueError],
    [UnicodeDecodeError], pandas' [ParserError] and [EmptyDataError] too;
    [FileNotFoundError] and [IsADirectoryError] derive from [OSError]. *)
Inductive KafkaError : Type :=
| MkKafkaError (errcode : Z).

Inductive exn : Type :=
| FileNotFoundError (path : pystr)
| ValueError
| TypeError
| UnicodeEncodeError
| BufferError
| KafkaException (err : KafkaError)
| ParserError
| EmptyDataError
| UnicodeDecodeError
| IsADirectoryError
| SystemExit (status : Z).

Definition is_Exception (e : exn) : bool :=
  match e with
  | SystemExit _ => false
  | _ => true
  end.

Definition is_FileNotFoundError (e : exn) : bool :=
  match e with
  | FileNotFoundError _ => true
  | _ => false
  end.

Definition is_ValueError (e : exn) : bool :=
  match e with
  | ValueError | UnicodeEncodeError | UnicodeDecodeError
  | ParserError | EmptyDataError => true
  | _ => false
  end.

(** The result of an expression: a value, or a raised exception. *)
Inductive result (A : Type) : Type :=
| Ok (a : A)
| Raise (e : exn).

Arguments Ok {A} a.
Arguments Raise {A} e.

(* ================================================================= *)
(** ** Values held by a DataFrame cell *)

(** A binary64 float is kept as what [float.__repr__] prints for it; the
    three special values are told apart because [json] writes them as
    [NaN], [Infinity] and [-Infinity]. *)
Inductive pyfloat : Type :=
| FNaN
| FInf (negative : bool)
| FFinite (repr : string).

(** [VObj cls text] is an object of any other class (a [Timestamp], a
    [Decimal], a numpy scalar that was not boxed, ...) together with what
    [str(o)] returns for it. *)
Inductive value : Type :=
| VNone
| VBool (b : bool)
| VInt (z : Z)
| VFloat (f : pyfloat)
| VStr (s : pystr)
| VObj (cls : string) (text : pystr).


(* ================================================================= *)
(** ** [json.dumps(o, default=str)] *)

Module Json.

(** One lower-case hexadecimal digit, as [format(n, '04x')] prints it. *)
Definition hex_digit (n : Z) : Z :=
  if n <? 10 then 48 + n else 87 + n.

(** [ '\\u{0:04x}'.format(n) ] *)
Definition u_escape (n : Z) : pystr :=
  [92; 117;
   hex_digit (Z.land (Z.shiftr n 12) 15);
   hex_digit (Z.land (Z.shiftr n 8) 15);
   hex_digit (Z.land (Z.shiftr n 4) 15);
   hex_digit (Z.land n 15)].

(** The replacement [py_encode_basestring_ascii] makes for one character:
    the table [ESCAPE_DCT] first, then printable ASCII unchanged, then
    [\uXXXX], with a surrogate pair above the basic plane. *)
Definition escape_char (c : Z) : pystr :=
  if c =? 34 then [92; 34]
  else if c =? 92 then [92; 92]
  else if c =? 8 then [92; 98]
  else if c =? 12 then [92; 102]
  else if c =? 10 then [92; 110]
  else if c =? 13 then [92; 114]
  else if c =? 9 then [92; 116]
  else if (32 <=? c) && (c <=? 126) then [c]
  else if c <? 65536 then u_escape c
  else
    let n := c - 65536 in
    let s1 := Z.lor 55296 (Z.land (Z.shiftr n 10) 1023) in
    let s2 := Z.lor 56320 (Z.land n 1023) in
    u_escape s1 ++ u_escape s2.

Definition encode_basestring_ascii (s : pystr) : pystr :=
  34 :: flat_map escape_char s ++ [34].

Fixpoint uint_digits (u : Decimal.uint) : pystr :=
  match u with
  | Decimal.Nil => []
  | Decimal.D0 u' => 48 :: uint_digits u'
  | Decimal.D1 u' => 49 :: uint_digits u'
  | Decimal.D2 u' => 50 :: uint_digits u'
  | Decimal.D3 u' => 51 :: uint_digits u'
  | Decimal.D4 u' => 52 :: uint_digits u'
  | Decimal.D5 u' => 53 :: uint_digits u'
  | Decimal.D6 u' => 54 :: uint_digits u'
  | Decimal.D7 u' => 55 :: uint_digits u'
  | Decimal.D8 u' => 56 :: uint_digits u'
  | Decimal.D9 u' => 57 :: uint_digits u'
  end.

(** [int.__repr__] *)
Definition int_repr (z : Z) : pystr :=
  match Z.to_int z with
  | Decimal.Pos u => uint_digits u
  | Decimal.Neg u => 45 :: uint_digits u
  end.

(** [floatstr] of the encoder, with [allow_nan=True]. *)
Definition float_repr (f : pyfloat) : pystr :=
  match f with
  | FNaN => of_string "NaN"
  | FInf false => of_string "Infinity"
  | FInf true => of_string "-Infinity"
  | FFinite r => of_string r
  end.

(** [default=str]: what the encoder calls on an object it cannot
    serialise; the string it returns is then encoded in its place. *)
Definition default_str (v : value) : value :=
  match v with
  | VObj _ text => VStr text
  | _ => v
  end.

(** One value.  The only non-native case goes through [default]. *)
Definition encode_value (v : value) : pystr :=
  match v with
  | VNone => of_string "null"
  | VBool true => of_string "true"
  | VBool false => of_string "false"
  | VInt z => int_repr z
  | VFloat f => float_repr f
  | VStr s => encode_basestring_ascii s
  | VObj _ _ =>
      match default_str v with
      | VStr s => encode_basestring_ascii s
      | _ => []
      end
  end.

Definition encode_item (kv : pystr * value) : pystr :=
  encode_basestring_ascii (fst kv) ++ of_string ": " ++ encode_value (snd kv).

(** [', '.join(items)] *)
Fixpoint join_items (items : list pystr) : pystr :=
  match items with
  | [] => []
  | [i] => i
  | i :: rest => i ++ of_string ", " ++ join_items rest
  end.

(** [json.dumps(d, default=str)] for a dict with string keys. *)
Definition dumps (d : list (pystr * value)) : pystr :=
  of_string "{" ++ join_items (map encode_item d) ++ of_string "}".

End Json.

(** [str.encode('utf-8')]: one to four bytes per code point; a surrogate
    cannot be encoded and raises [UnicodeEncodeError]. *)
Definition byte_of_Z (z : Z) : byte :=
  match Byte.of_N (Z.to_N z) with
  | Some b => b
  | None => x00
  end.

Definition utf8_char (c : Z) : result (list Z) :=
  if c <? 0 then Raise UnicodeEncodeError
  else if c <? 128 then Ok [c]
  else if c <? 2048 then
    Ok [Z.lor 192 (Z.shiftr c 6); Z.lor 128 (Z.land c 63)]
  else if (55296 <=? c) && (c <=? 57343) then Raise UnicodeEncodeError
  else if c <? 65536 then
    Ok [Z.lor 224 (Z.shiftr c 12);
        Z.lor 128 (Z.land (Z.shiftr c 6) 63);
        Z.lor 128 (Z.land c 63)]
  else if c <? 1114112 then
    Ok [Z.lor 240 (Z.shiftr c 18);
        Z.lor 128 (Z.land (Z.shiftr c 12) 63);
        Z.lor 128 (Z.land (Z.shiftr c 6) 63);
        Z.lor 128 (Z.land c 63)]
  else Raise UnicodeEncodeError.

Fixpoint encode_utf8 (s : pystr) : result pybytes :=
  match s with
  | [] => Ok []
  | c :: s' =>
      match utf8_char c with
      | Raise e => Raise e
      | Ok bs =>
          match encode_utf8 s' with
          | Raise e => Raise e
          | Ok rest => Ok (map byte_of_Z bs ++ rest)
          end
      end
  end.


(* ================================================================= *)
(** ** pandas: DataFrame, [iterrows], [Series.to_dict] *)

(** An index label.  [pd.read_csv] gives a [RangeIndex] of integers, or,
    when the data lines have one field more than the header, the first
    column as the index, whose labels are then whatever that column holds. *)
Inductive label : Type :=
| LInt (i : Z)
| LStr (s : pystr).

(** A row as [iterrows] yields it: values under the column labels. *)
Definition Series := list (pystr * value).

Record DataFrame : Type := {
  columns : list pystr;
  rows : list (label * list value)
}.

(** [len(df)] *)
Definition len (df : DataFrame) : Z := Z.of_nat (List.length (rows df)).

(** [df.iterrows()]: for each line a fresh [Series] over the columns. *)
Definition iterrows (df : DataFrame) : list (label * Series) :=
  map (fun r => (fst r, combine (columns df) (snd r))) (rows df).

(** A [dict] keeps insertion order; assigning to a key that is present
    replaces the value where it stands. *)
Definition dict := list (pystr * value).

Fixpoint dict_set (d : dict) (k : pystr) (v : value) : dict :=
  match d with
  | [] => [(k, v)]
  | (k', v') :: d' =>
      if pystr_eqb k' k then (k', v) :: d' else (k', v') :: dict_set d' k v
  end.

(** [row.to_dict()]: a new dict filled from the items of the row. *)
Definition to_dict (row : Series) : dict :=
  fold_left (fun d kv => dict_set d (fst kv) (snd kv)) row [].

(** The payload of one row, lines 87, 88 and 92 of the script:
    [json.dumps(row.to_dict(), default=str).encode('utf-8')]. *)
Definition encode_row (row : Series) : result pybytes :=
  let row_dict := to_dict row in
  let message_value := Json.dumps row_dict in
  encode_utf8 message_value.

(** [idx + 1] on an index label: integer addition, [TypeError] on a string. *)
Definition label_succ (idx : label) : result Z :=
  match idx with
  | LInt i => Ok (i + 1)
  | LStr _ => Raise TypeError
  end.

(* ================================================================= *)
(** ** The frame of [send_to_kafka] and the Kafka producer *)

(** The two counters of [send_to_kafka], the local state a delivery callback
    defined in its body closes over. *)
Record Frame : Type := {
  successful : Z;
  failed : Z
}.

Record Message : Type := {
  msg_topic : pystr;
  msg_value : pybytes
}.

(** A delivery callback [callback(err, msg)]: it runs against the frame it
    closes over and returns a value or raises. *)
Definition Callback : Type :=
  option KafkaError -> Message -> Frame -> result value * Frame.

Record Config : Type := {
  bootstrap_servers : pystr;
  queue_buffering_max_messages : Z;
  queue_buffering_max_kbytes : Z;
  batch_num_messages : Z;
  linger_ms : Z
}.

(** Why a call of [produce] does not queue its message: the local queue is
    full ([BufferError]) or the client refuses it ([KafkaException]). *)
Inductive produce_error : Type :=
| QueueFull
| Refused (err : KafkaError).

Definition raised_by_produce (pe : produce_error) : exn :=
  match pe with
  | QueueFull => BufferError
  | Refused err => KafkaException err
  end.

(** The environment of the producer.  [connect] says whether
    [Producer(config)] raises; [enqueue n m] whether the [n]-th call of
    [produce] raises; [report n] is the delivery report of the [n]-th
    accepted message ([None] for success); [ready k] is how many reports
    the [k]-th [poll(0)] finds waiting. *)
Record Broker : Type := {
  connect : Config -> option KafkaError;
  enqueue : nat -> Message -> option produce_error;
  report : nat -> option KafkaError;
  ready : nat -> nat
}.

(** A queued message: its sequence number, the message, its callback. *)
Definition entry : Type := nat * Message * Callback.

Record Producer : Type := {
  queue : list entry;
  produced : nat;
  accepted : nat;
  polls : nat
}.

Inductive level : Type := INFO | WARNING | ERROR.

Inductive log_msg : Type :=
| LogLoading (path : pystr)
| LogLoaded (n : Z)
| LogColumns (cols : list pystr)
| LogConnecting (servers : pystr)
| LogTopic (topic : pystr)
| LogProducerFailed (e : exn)
| LogStarting (total_rows : Z)
| LogSent (n total_rows : Z)
| LogRowError (idx : label) (e : exn)
| LogFlushing
| LogCompleted (ok ko : Z)
| LogRowsFailed (ko : Z)
| LogLoadedToKafka
| LogNotAllLoaded
| LogMessage (e : exn)
| LogUnexpected (e : exn).

(** What a run does that can be seen from outside, in order. *)
Inductive event : Type :=
| EvReadCsv (path : pystr)
| EvProduce (m : Message) (cb : Callback) (queued : bool)
| EvPoll
| EvFlush
| EvReport (seq : nat) (err : option KafkaError)
| EvLog (lvl : level) (msg : log_msg).

Module Kafka.

(** [Producer(config)] *)
Definition new (br : Broker) (config : Config) : result Producer :=
  match connect br config with
  | Some err => Raise (KafkaException err)
  | None => Ok {| queue := []; produced := 0; accepted := 0; polls := 0 |}
  end.

(** Serve delivery reports: call each callback with the outcome the broker
    gave; a callback that raises stops the service and its exception is
    what [poll] or [flush] raises. *)
Fixpoint serve (br : Broker) (q : list entry) (f : Frame)
  : option exn * list entry * Frame * list event :=
  match q with
  | [] => (None, [], f, [])
  | (n, m, cb) :: q' =>
      match cb (report br n) m f with
      | (Ok _, f') =>
          match serve br q' f' with
          | (r, rest, f'', evs) => (r, rest, f'', EvReport n (report br n) :: evs)
          end
      | (Raise e, f') => (Some e, q', f', [EvReport n (report br n)])
      end
  end.

End Kafka.

(* ================================================================= *)
(** ** State and error monad of the send loop *)

(** [st_df] is the caller's DataFrame object, which the loop iterates. *)
Record state : Type := {
  st_df : DataFrame;
  st_producer : Producer;
  st_frame : Frame;
  st_trace : list event
}.

Definition M (A : Type) : Type := state -> result A * state.

Definition ret {A : Type} (a : A) : M A := fun st => (Ok a, st).

Definition bind {A B : Type} (c : M A) (k : A -> M B) : M B :=
  fun st =>
    match c st with
    | (Ok a, st') => k a st'
    | (Raise e, st') => (Raise e, st')
    end.

Declare Scope py_scope.
Delimit Scope py_scope with py.
Notation "x <- c ;; k" := (bind c (fun x => k))
  (at level 61, c at next level, right associativity) : py_scope.
Notation "c ;; k" := (bind c (fun _ => k))
  (at level 61, right associativity) : py_scope.
Open Scope py_scope.

(** Evaluate an expression that touches no state. *)
Definition lift {A : Type} (r : result A) : M A := fun st => (r, st).

(** [try: body except <classes> as e: handler e].  What the body did to the
    state before it raised stays done. *)
Definition try_except {A : Type} (body : M A) (catches : exn -> bool)
    (handler : exn -> M A) : M A :=
  fun st =>
    match body st with
    | (Ok a, st') => (Ok a, st')
    | (Raise e, st') => if catches e then handler e st' else (Raise e, st')
    end.

Definition emit (evs : list event) : M unit :=
  fun st =>
    (Ok tt, {| st_df := st_df st; st_producer := st_producer st;
               st_frame := st_frame st; st_trace := st_trace st ++ evs |}).

Definition logger (lvl : level) (msg : log_msg) : M unit :=
  emit [EvLog lvl msg].

Definition get_frame : M Frame := fun st => (Ok (st_frame st), st).

Definition set_frame (f : Frame) : M unit :=
  fun st =>
    (Ok tt, {| st_df := st_df st; st_producer := st_producer st;
               st_frame := f; st_trace := st_trace st |}).

Definition set_producer (p : Producer) : M unit :=
  fun st =>
    (Ok tt, {| st_df := st_df st; st_producer := p;
               st_frame := st_frame st; st_trace := st_trace st |}).

Definition get_producer : M Producer := fun st => (Ok (st_producer st), st).

Definition get_df : M DataFrame := fun st => (Ok (st_df st), st).

Section Producer_methods.

Variable br : Broker.

(** [producer.produce(topic, value=value, callback=cb)] *)
Definition produce (topic : pystr) (value : pybytes) (cb : Callback) : M unit :=
  p <- get_producer ;;
  let m := {| msg_topic := topic; msg_value := value |} in
  match enqueue br (produced p) m with
  | Some pe =>
      set_producer {| queue := queue p; produced := S (produced p);
                      accepted := accepted p; polls := polls p |} ;;
      emit [EvProduce m cb false] ;;
      lift (Raise (raised_by_produce pe))
  | None =>
      set_producer {| queue := queue p ++ [(accepted p, m, cb)];
                      produced := S (produced p);
                      accepted := S (accepted p); polls := polls p |} ;;
      emit [EvProduce m cb true]
  end.

(** Run the callbacks of the entries [q], keep [later] queued behind what
    was not served, and raise what a callback raised. *)
Definition deliver (q later : list entry) (polled : nat) : M Z :=
  p <- get_producer ;;
  f <- get_frame ;;
  match Kafka.serve br q f with
  | (r, rest, f', evs) =>
      set_producer {| queue := rest ++ later; produced := produced p;
                      accepted := accepted p; polls := polled |} ;;
      set_frame f' ;;
      emit evs ;;
      match r with
      | Some e => lift (Raise e)
      | None => ret (Z.of_nat (List.length evs))
      end
  end.

(** [producer.poll(0)]: serve the reports that are waiting, do not block. *)
Definition poll (timeout : Z) : M Z :=
  p <- get_producer ;;
  emit [EvPoll] ;;
  let k := Nat.min (ready br (polls p)) (List.length (queue p)) in
  deliver (firstn k (queue p)) (skipn k (queue p)) (S (polls p)).

(** [producer.flush()]: block until every queued message has its report. *)
Definition flush : M Z :=
  p <- get_producer ;;
  emit [EvFlush] ;;
  deliver (queue p) [] (polls p) ;;
  q <- get_producer ;;
  ret (Z.of_nat (List.length (queue q))).

End Producer_methods.

(* ================================================================= *)
(** ** The script *)

(** Lines 23 and 24, when the environment sets neither variable. *)
Definition KAFKA_BOOTSTRAP_SERVERS : pystr := of_string "localhost:9095".
Definition KAFKA_TOPIC : pystr := of_string "transactions".

(** Line 93: [lambda err, msg: None]. *)
Definition ack_callback : Callback :=
  fun _err _msg f => (Ok VNone, f).

(** Lines 65 to 71. *)
Definition producer_config (servers : pystr) : Config :=
  {| bootstrap_servers := servers;
     queue_buffering_max_messages := 500000;
     queue_buffering_max_kbytes := 1048576;
     batch_num_messages := 10000;
     linger_ms := 50 |}.

Section Send_loop.

Variable br : Broker.
Variable topic : pystr.
Variable total_rows : Z.

(** [successful += 1] *)
Definition incr_successful : M unit :=
  f <- get_frame ;;
  set_frame {| successful := successful f + 1; failed := failed f |}.

(** [failed += 1] *)
Definition incr_failed : M unit :=
  f <- get_frame ;;
  set_frame {| successful := successful f; failed := failed f + 1 |}.

(** Lines 98 to 105: poll every 100 messages, flush every 10000. *)
Definition housekeeping (idx : label) : M unit :=
  n <- lift (label_succ idx) ;;
  (if n mod 100 =? 0 then poll br 0 ;; ret tt else ret tt) ;;
  n' <- lift (label_succ idx) ;;
  if n' mod 10000 =? 0 then
    flush br ;;
    n'' <- lift (label_succ idx) ;;
    logger INFO (LogSent n'' total_rows)
  else ret tt.

(** The body of the [try], lines 87 to 105. *)
Definition send_row (idx : label) (row : Series) : M unit :=
  payload <- lift (encode_row row) ;;
  produce br topic payload ack_callback ;;
  incr_successful ;;
  housekeeping idx.

(** The [except Exception as e] clause, lines 108 to 111. *)
Definition on_row_error (idx : label) (e : exn) : M unit :=
  logger ERROR (LogRowError idx e) ;;
  incr_failed ;;
  poll br 0 ;;
  ret tt.

(** [for idx, row in df.iterrows(): try: ... except Exception: ...] *)
Fixpoint for_rows (its : list (label * Series)) : M unit :=
  match its with
  | [] => ret tt
  | (idx, row) :: rest =>
      try_except (send_row idx row) is_Exception (on_row_error idx) ;;
      for_rows rest
  end.

End Send_loop.

(** Lines 79 to 122, once the producer exists. *)
Definition send_rows (br : Broker) (topic : pystr) : M bool :=
  df <- get_df ;;
  let total_rows := len df in
  set_frame {| successful := 0; failed := 0 |} ;;
  logger INFO (LogStarting total_rows) ;;
  for_rows br topic total_rows (iterrows df) ;;
  logger INFO LogFlushing ;;
  flush br ;;
  f <- get_frame ;;
  logger INFO (LogCompleted (successful f) (failed f)) ;;
  if failed f >? 0 then
    logger WARNING (LogRowsFailed (failed f)) ;;
    ret false
  else ret true.

(** How a call of [send_to_kafka] ends: [Producer(config)] raised [e] (the
    function logs it and returns [False], line 77, unless [e] is not an
    [Exception]), or the producer was created and the rest ran, returning a
    boolean or letting an exception out, in the state [st]. *)
Inductive send_result : Type :=
| NoProducer (e : exn) (trace : list event)
| Ran (r : result bool) (st : state).

Definition returned (sr : send_result) : result bool :=
  match sr with
  | NoProducer e _ => if is_Exception e then Ok false else Raise e
  | Ran r _ => r
  end.

Definition trace_of (sr : send_result) : list event :=
  match sr with
  | NoProducer _ t => t
  | Ran _ st => st_trace st
  end.

(** Lines 57 to 122.  The counters of the frame get their values at lines
    80 and 81, in [send_rows]. *)
Definition send_to_kafka (br : Broker) (df : DataFrame) (topic servers : pystr)
  : send_result :=
  let t0 := [EvLog INFO (LogConnecting servers); EvLog INFO (LogTopic topic)] in
  match Kafka.new br (producer_config servers) with
  | Raise e =>
      NoProducer e
        (if is_Exception e then t0 ++ [EvLog ERROR (LogProducerFailed e)] else t0)
  | Ok producer =>
      let st0 := {| st_df := df; st_producer := producer;
                    st_frame := {| successful := 0; failed := 0 |};
                    st_trace := t0 |} in
      let (r, st) := send_rows br topic st0 in
      Ran r st
  end.

(** What [pd.read_csv] does with a path that exists: return a DataFrame, or
    raise because the content is not CSV, is empty, is not text, or the path
    is a directory. *)
Inductive content : Type :=
| Parsed (df : DataFrame)
| NotCsv
| Empty
| NotText
| Directory.

Definition read_csv (c : content) : result DataFrame :=
  match c with
  | Parsed df => Ok df
  | NotCsv => Raise ParserError
  | Empty => Raise EmptyDataError
  | NotText => Raise UnicodeDecodeError
  | Directory => Raise IsADirectoryError
  end.

(** The file system gives the content of the paths that exist. *)
Record World : Type := {
  files : pystr -> option content;
  broker : Broker
}.

(** Lines 41 to 54. *)
Definition load_csv (w : World) (file_path : pystr)
  : result DataFrame * list event :=
  match files w file_path with
  | None => (Raise (FileNotFoundError file_path), [])
  | Some c =>
      let t := [EvLog INFO (LogLoading file_path); EvReadCsv file_path] in
      match read_csv c with
      | Ok df =>
          (Ok df, t ++ [EvLog INFO (LogLoaded (len df));
                        EvLog INFO (LogColumns (columns df))])
      | Raise e =>
          if is_Exception e then (Raise ValueError, t) else (Raise e, t)
      end
  end.

(** The parsed command line. *)
Record Args : Type := {
  csv_file : pystr;
  arg_bootstrap_servers : pystr;
  arg_topic : pystr
}.

(** The body of the [try] in [main], lines 150 to 159; [sys.exit(n)] raises
    [SystemExit(n)]. *)
Definition main_body (w : World) (args : Args) : result unit * list event :=
  match load_csv w (csv_file args) with
  | (Raise e, t) => (Raise e, t)
  | (Ok df, t) =>
      let sr := send_to_kafka (broker w) df (arg_topic args)
                  (arg_bootstrap_servers args) in
      match returned sr with
      | Raise e => (Raise e, t ++ trace_of sr)
      | Ok true =>
          (Raise (SystemExit 0), t ++ trace_of sr ++ [EvLog INFO LogLoadedToKafka])
      | Ok false =>
          (Raise (SystemExit 1), t ++ trace_of sr ++ [EvLog ERROR LogNotAllLoaded])
      end
  end.

(** [main], with its three [except] clauses, lines 161 to 169. *)
Definition main (w : World) (args : Args) : result unit * list event :=
  match main_body w args with
  | (Ok u, t) => (Ok u, t)
  | (Raise e, t) =>
      if is_FileNotFoundError e then
        (Raise (SystemExit 1), t ++ [EvLog ERROR (LogMessage e)])
      else if is_ValueError e then
        (Raise (SystemExit 1), t ++ [EvLog ERROR (LogMessage e)])
      else if is_Exception e then
        (Raise (SystemExit 1), t ++ [EvLog ERROR (LogUnexpected e)])
      else (Raise e, t)
  end.

(** The exit status of the process: the argument of the [SystemExit] that
    ends it; an exception nothing caught ends it with status 1. *)
Definition exit_code (r : result unit) : Z :=
  match r with
  | Ok _ => 0
  | Raise (SystemExit status) => status
  | Raise _ => 1
  end.

Definition run (w : World) (args : Args) : Z := exit_code (fst (main w args)).

(* ----------------------------------------------------------------- *)
(** *** Concrete environments used in the examples *)

Definition no_error : nat -> Message -> option produce_error := fun _ _ => None.

(** A broker that accepts every message and delivers each one. *)
Definition good_broker : Broker :=
  {| connect := fun _ => None;
     enqueue := no_error;
     report := fun _ => None;
     ready := fun _ => 0%nat |}.

Definition sample_row (i : Z) : label * list value :=
  (LInt i, [VInt i; VStr (of_string "ok")]).

Definition sample_df : DataFrame :=
  {| columns := [of_string "id"; of_string "note"];
     rows := [sample_row 0; sample_row 1; sample_row 2] |}.

(** The broker is reachable and queues everything, but the broker-side
    delivery of the second message fails: its report carries an error. *)
Definition nack_broker : Broker :=
  {| connect := fun _ => None;
     enqueue := no_error;
     report := fun n => if Nat.eqb n 1 then Some (MkKafkaError (-185)) else None;
     ready := fun _ => 0%nat |}.

(** The second call of [produce] finds the local queue full. *)
Definition full_queue_broker : Broker :=
  {| connect := fun _ => None;
     enqueue := fun n _ => if Nat.eqb n 1 then Some QueueFull else None;
     report := fun _ => None;
     ready := fun _ => 1%nat |}.

(** [Producer(config)] raises. *)
Definition down_broker : Broker :=
  {| connect := fun _ => Some (MkKafkaError (-196));
     enqueue := no_error;
     report := fun _ => None;
     ready := fun _ => 0%nat |}.

(** What [pd.read_csv] makes of the two lines [a,b] and [x,1,2]: the data
    line has one field more than the header, so its first field is the
    index label. *)
Definition labelled_df : DataFrame :=
  {| columns := [of_string "a"; of_string "b"];
     rows := [(LStr (of_string "x"), [VInt 1; VInt 2])] |}.



Definition data_csv : pystr := of_string "data.csv".

(** A file system with the single file [data.csv], parsed as [df]. *)
Definition world_with (df : DataFrame) (br : Broker) : World :=
  {| files := fun path => if pystr_eqb path data_csv then Some (Parsed df) else None;
     broker := br |}.

Definition empty_world : World :=
  {| files := fun _ => None; broker := good_broker |}.

Definition default_args : Args :=
  {| csv_file := data_csv;
     arg_bootstrap_servers := KAFKA_BOOTSTRAP_SERVERS;
     arg_topic := KAFKA_TOPIC |}.

(* ================================================================= *)
(** ** Reading a run: what happened to each row, what the trace holds *)

(** The ways one iteration of the loop can go, read off [send_row] and
    [on_row_error]:
    - [Sent]: the body ran to its end;
    - [NotEncoded]: [encode_row] raised, before [produce];
    - [Rejected]: [produce] raised;
    - [CountedTwice]: [produce] queued the message and [successful] was
      incremented, then [idx + 1] raised and the handler incremented
      [failed] as well. *)
Inductive fate : Type := Sent | NotEncoded | Rejected | CountedTwice.

Definition fate_of (enq : nat -> Message -> option produce_error)
    (topic : pystr) (n : nat) (idx : label) (row : Series) : fate :=
  match encode_row row with
  | Raise _ => NotEncoded
  | Ok payload =>
      match enq n {| msg_topic := topic; msg_value := payload |} with
      | Some _ => Rejected
      | None =>
          match label_succ idx with
          | Ok _ => Sent
          | Raise _ => CountedTwice
          end
      end
  end.

(** Did the iteration call [produce]? *)
Definition calls_produce (ft : fate) : nat :=
  match ft with
  | NotEncoded => 0%nat
  | _ => 1%nat
  end.

(** Did the body raise? *)
Definition raised (ft : fate) : bool :=
  match ft with
  | Sent => false
  | _ => true
  end.

Definition count_row (f : Frame) (ft : fate) : Frame :=
  {| successful := successful f +
                   match ft with Sent | CountedTwice => 1 | _ => 0 end;
     failed := failed f + if raised ft then 1 else 0 |}.

(** The fates of the rows in turn; [n] counts the calls of [produce]. *)
Fixpoint fates (enq : nat -> Message -> option produce_error) (topic : pystr)
    (n : nat) (its : list (label * Series)) : list fate :=
  match its with
  | [] => []
  | (idx, row) :: rest =>
      let ft := fate_of enq topic n idx row in
      ft :: fates enq topic (n + calls_produce ft) rest
  end.

Definition tally (f : Frame) (fts : list fate) : Frame :=
  fold_left count_row fts f.

(** The [produce] calls the loop makes over the rows, in order. *)
Fixpoint planned (enq : nat -> Message -> option produce_error) (topic : pystr)
    (n : nat) (its : list (label * Series)) : list event :=
  match its with
  | [] => []
  | (idx, row) :: rest =>
      match encode_row row with
      | Raise _ => planned enq topic n rest
      | Ok payload =>
          let m := {| msg_topic := topic; msg_value := payload |} in
          EvProduce m ack_callback
            (match enq n m with None => true | Some _ => false end)
          :: planned enq topic (S n) rest
      end
  end.

Definition is_produce (e : event) : bool :=
  match e with
  | EvProduce _ _ _ => true
  | _ => false
  end.

(** A call on the producer, as opposed to a log line or a delivery report. *)
Definition is_call (e : event) : bool :=
  match e with
  | EvProduce _ _ _ | EvPoll | EvFlush => true
  | _ => false
  end.

(** The payloads handed to [produce], in order. *)
Definition payloads (t : list event) : list pybytes :=
  flat_map (fun e => match e with
                     | EvProduce m _ _ => [msg_value m]
                     | _ => []
                     end) t.

(** The payloads of the rows of a frame that can be encoded, in order. *)
Definition row_payloads (its : list (label * Series)) : list pybytes :=
  flat_map (fun it => match encode_row (snd it) with
                      | Ok b => [b]
                      | Raise _ => []
                      end) its.

(** Every queued callback is the script's. *)
Definition quiet (st : state) : Prop :=
  Forall (fun e : entry => snd e = ack_callback) (queue (st_producer st)).

(** What a step leaves alone: the DataFrame, the counters, the number of
    [produce] calls; the queue stays quiet and the trace grows by [evs]. *)
Definition idles (st st' : state) (evs : list event) : Prop :=
  st_df st' = st_df st /\
  st_frame st' = st_frame st /\
  produced (st_producer st') = produced (st_producer st) /\
  quiet st' /\
  st_trace st' = st_trace st ++ evs.

(** The delivery reports served for the entries [q]. *)
Definition reports (br : Broker) (q : list entry) : list event :=
  map (fun e : entry => EvReport (fst (fst e)) (report br (fst (fst e)))) q.

Definition frame_of (sr : send_result) : option Frame :=
  match sr with
  | NoProducer _ _ => None
  | Ran _ st => Some (st_frame st)
  end.

(** The same broker with other delivery reports. *)
Definition with_reports (br : Broker) (r : nat -> option KafkaError) : Broker :=
  {| connect := connect br; enqueue := enqueue br; report := r;
     ready := ready br |}.

Definition integer_label (idx : label) : bool :=
  match idx with
  | LInt _ => true
  | LStr _ => false
  end.

(** Rows whose labels are all integers. *)
Definition integer_labels (its : list (label * Series)) : bool :=
  forallb (fun it => integer_label (fst it)) its.

(** Every index label of the DataFrame is an integer. *)
Definition integer_index (df : DataFrame) : bool :=
  forallb (fun r => integer_label (fst r)) (rows df).

(* ----------------------------------------------------------------- *)
(** *** Counting in a trace *)

Definition is_poll (e : event) : bool :=
  match e with
  | EvPoll => true
  | _ => false
  end.

Definition is_flush (e : event) : bool :=
  match e with
  | EvFlush => true
  | _ => false
  end.

Definition is_report (e : event) : bool :=
  match e with
  | EvReport _ _ => true
  | _ => false
  end.


Definition count (p : event -> bool) (t : list event) : nat :=
  List.length (filter p t).


(** The labels are [k], [k + 1], [k + 2], ...: from [k = 0], the
    [RangeIndex] of a DataFrame read without an index column. *)
Fixpoint consecutive (k : Z) (its : list (label * Series)) : bool :=
  match its with
  | [] => true
  | (LInt i, _) :: rest => (i =? k) && consecutive (k + 1) rest
  | (LStr _, _) :: _ => false
  end.

(** The DataFrame has the [RangeIndex] 0, 1, 2, ... that [pd.read_csv]
    gives when the file has no index column. *)
Definition range_index (df : DataFrame) : bool := consecutive 0 (iterrows df).

(** [1] when [n] is a multiple of [d], else [0]. *)
Definition every (d n : Z) : nat := if n mod d =? 0 then 1%nat else 0%nat.




(** The ERROR line of the [except] clause of the loop, line 108. *)
Definition is_row_error (e : event) : bool :=
  match e with
  | EvLog ERROR (LogRowError _ _) => true
  | _ => false
  end.

(** Every failure counted so far has its ERROR line in the log. *)
Definition logged (st : state) : Prop :=
  quiet st /\
  failed (st_frame st) = Z.of_nat (count is_row_error (st_trace st)).

(** A computation keeps an invariant, whether it returns or raises. *)
Definition preserves {A : Type} (I : state -> Prop) (c : M A) : Prop :=
  forall st, I st -> I (snd (c st)).

(** Printable ASCII, from the space to the tilde. *)
Definition printable (s : pystr) : Prop := Forall (fun c => 32 <= c <= 126) s.

Definition printable_ascii (a : ascii) : bool :=
  (32 <=? code a) && (code a <=? 126).

(** The text of every finite float of the row is printable ASCII, as what
    [float.__repr__] returns always is. *)
Definition plain_float (v : value) : bool :=
  match v with
  | VFloat (FFinite r) => forallb printable_ascii (list_ascii_of_string r)
  | _ => true
  end.

Definition plain_floats (row : Series) : bool :=
  forallb (fun kv => plain_float (snd kv)) row.

(** A file whose content [pd.read_csv] cannot parse. *)
Definition unreadable (c : content) : bool :=
  match c with
  | Parsed _ => false
  | _ => true
  end.

(** The same file system with [data.csv] holding [c]. *)
Definition world_holding (c : content) (br : Broker) : World :=
  {| files := fun path => if pystr_eqb path data_csv then Some c else None;
     broker := br |}.

(** [n] rows on a [RangeIndex] starting at [k], each with the values [vals]. *)
Fixpoint range_rows (n : nat) (k : Z) (vals : list value)
  : list (label * list value) :=
  match n with
  | O => []
  | S n' => (LInt k, vals) :: range_rows n' (k + 1) vals
  end.

Definition range_df (n : nat) : DataFrame :=
  {| columns := [of_string "id"]; rows := range_rows n 0 [VInt 1] |}.

(** Code points below 256: what [json.dumps] writes, whatever it reads. *)
Definition narrow (s : pystr) : Prop := Forall (fun c => 0 <= c < 256) s.

(** The text of a string literal of the encoder is printable. *)
Ltac literal s :=
  let x := eval vm_compute in (of_string s) in
  change (of_string s) with x;
  unfold printable; repeat (constructor; [lia | ]); constructor.

(** Membership in the trace of a concrete run, by running it. *)
Ltac in_trace := vm_compute; repeat (first [left; reflexivity | right]).

(* ================================================================= *)
(** * Properties *)

(* ----------------------------------------------------------------- *)
(** ** The encoder never fails *)

Create HintDb narrow.

Lemma narrow_app (s t : pystr) : narrow s -> narrow t -> narrow (s ++ t).
Proof. unfold narrow; intros; apply Forall_app; auto. Qed.

Lemma narrow_cons (c : Z) (s : pystr) :
  0 <= c < 256 -> narrow s -> narrow (c :: s).
Proof. unfold narrow; intros; constructor; auto. Qed.

Lemma narrow_nil : narrow [].
Proof. constructor. Qed.

Lemma narrow_of_string (s : string) : narrow (of_string s).
Proof.
  unfold narrow, of_string.
  apply Forall_map, Forall_forall; intros a _.
  unfold code.
  pose proof (nat_ascii_bounded a); lia.
Qed.

#[local] Hint Resolve narrow_app narrow_cons narrow_nil narrow_of_string : narrow.

Lemma nibble_range (n : Z) : 0 <= Z.land n 15 < 16.
Proof.
  change 15 with (Z.ones 4).
  rewrite Z.land_ones by lia.
  apply Z.mod_pos_bound; lia.
Qed.

Lemma hex_digit_range (n : Z) : 0 <= n < 16 -> 0 <= Json.hex_digit n < 256.
Proof.
  intros H; unfold Json.hex_digit.
  destruct (n <? 10); lia.
Qed.

Lemma narrow_u_escape (n : Z) : narrow (Json.u_escape n).
Proof.
  unfold Json.u_escape.
  repeat (apply narrow_cons;
          [ first [ lia | apply hex_digit_range, nibble_range ] | ]).
  apply narrow_nil.
Qed.

#[local] Hint Resolve narrow_u_escape : narrow.

Lemma narrow_escape_char (c : Z) : narrow (Json.escape_char c).
Proof.
  unfold Json.escape_char.
  repeat match goal with
         | |- context [if ?b then _ else _] => destruct b eqn:?
         end;
    auto with narrow;
    repeat (apply narrow_cons; [lia | ]); apply narrow_nil.
Qed.

Lemma narrow_flat_map {A : Type} (f : A -> pystr) (l : list A) :
  (forall a, narrow (f a)) -> narrow (flat_map f l).
Proof.
  intros Hf; induction l as [| a l IH]; simpl; auto with narrow.
Qed.

Lemma narrow_basestring (s : pystr) : narrow (Json.encode_basestring_ascii s).
Proof.
  unfold Json.encode_basestring_ascii.
  apply narrow_cons; [lia | ].
  apply narrow_app.
  - apply narrow_flat_map, narrow_escape_char.
  - apply narrow_cons; [lia | apply narrow_nil].
Qed.

Lemma narrow_uint_digits (u : Decimal.uint) : narrow (Json.uint_digits u).
Proof.
  induction u; simpl; try (apply narrow_cons; [lia | assumption]).
  apply narrow_nil.
Qed.

Lemma narrow_int_repr (z : Z) : narrow (Json.int_repr z).
Proof.
  unfold Json.int_repr.
  destruct (Z.to_int z).
  - apply narrow_uint_digits.
  - apply narrow_cons; [lia | apply narrow_uint_digits].
Qed.

#[local] Hint Resolve narrow_basestring narrow_int_repr : narrow.

Lemma narrow_encode_value (v : value) : narrow (Json.encode_value v).
Proof.
  destruct v as [| [|] | z | [| [|] | r] | s | cls text]; simpl;
    auto with narrow.
Qed.

Lemma narrow_encode_item (kv : pystr * value) : narrow (Json.encode_item kv).
Proof.
  unfold Json.encode_item.
  auto using narrow_encode_value with narrow.
Qed.

Lemma narrow_join_items (items : list pystr) :
  Forall narrow items -> narrow (Json.join_items items).
Proof.
  induction 1 as [| i rest Hi Hrest IH].
  - apply narrow_nil.
  - destruct rest as [| j rest'].
    + exact Hi.
    + change (narrow (i ++ of_string ", " ++ Json.join_items (j :: rest'))).
      auto with narrow.
Qed.

Lemma narrow_dumps (d : dict) : narrow (Json.dumps d).
Proof.
  unfold Json.dumps.
  apply narrow_app; [apply narrow_of_string | ].
  apply narrow_app; [ | apply narrow_of_string].
  apply narrow_join_items, Forall_map, Forall_forall.
  intros kv _; apply narrow_encode_item.
Qed.

Lemma encode_utf8_narrow (s : pystr) :
  narrow s -> exists b, encode_utf8 s = Ok b.
Proof.
  induction 1 as [| c s Hc Hs [b IH]]; simpl.
  - eexists; reflexivity.
  - unfold utf8_char.
    destruct (c <? 0) eqn:E0; [apply Z.ltb_lt in E0; lia | ].
    destruct (c <? 128); [rewrite IH; eexists; reflexivity | ].
    destruct (c <? 2048) eqn:E2; [rewrite IH; eexists; reflexivity | ].
    apply Z.ltb_ge in E2; lia.
Qed.

(** [encode_row] always returns a payload. *)
Lemma encode_row_total (row : Series) : exists b, encode_row row = Ok b.
Proof.
  unfold encode_row.
  apply encode_utf8_narrow, narrow_dumps.
Qed.

(* ----------------------------------------------------------------- *)
(** ** [poll] and [flush] when every queued callback is [ack_callback] *)

Lemma reports_not_calls (br : Broker) (q : list entry) :
  Forall (fun e => is_call e = false) (reports br q).
Proof.
  unfold reports; apply Forall_map, Forall_forall; intros e _; reflexivity.
Qed.

Lemma serve_quiet (br : Broker) (q : list entry) (f : Frame) :
  Forall (fun e : entry => snd e = ack_callback) q ->
  Kafka.serve br q f = (None, [], f, reports br q).
Proof.
  induction 1 as [| [[n m] cb] q Hcb Hq IH]; simpl.
  - reflexivity.
  - simpl in Hcb; subst cb.
    unfold ack_callback at 1.
    rewrite IH; reflexivity.
Qed.

Lemma deliver_quiet (br : Broker) (q later : list entry) (polled : nat)
    (st : state) :
  Forall (fun e : entry => snd e = ack_callback) q ->
  deliver br q later polled st =
  (Ok (Z.of_nat (List.length (reports br q))),
   {| st_df := st_df st;
      st_producer := {| queue := later;
                        produced := produced (st_producer st);
                        accepted := accepted (st_producer st);
                        polls := polled |};
      st_frame := st_frame st;
      st_trace := st_trace st ++ reports br q |}).
Proof.
  intros Hq.
  unfold deliver, bind, get_producer, get_frame.
  rewrite (serve_quiet br q (st_frame st) Hq).
  reflexivity.
Qed.

Lemma poll_quiet (br : Broker) (timeout : Z) (st : state) :
  quiet st ->
  exists n st' rs,
    poll br timeout st = (Ok n, st') /\
    idles st st' (EvPoll :: rs) /\
    Forall (fun e => is_call e = false) rs.
Proof.
  intros Hq.
  set (k := Nat.min (ready br (polls (st_producer st)))
                    (List.length (queue (st_producer st)))).
  assert (Hsplit : Forall (fun e : entry => snd e = ack_callback)
                     (firstn k (queue (st_producer st))) /\
                   Forall (fun e : entry => snd e = ack_callback)
                     (skipn k (queue (st_producer st)))).
  { apply Forall_app. rewrite firstn_skipn. exact Hq. }
  destruct Hsplit as [Hserved Hlater].
  unfold poll, bind, get_producer, emit; simpl.
  fold k.
  rewrite deliver_quiet by exact Hserved.
  do 3 eexists; split; [reflexivity | split].
  - unfold idles, quiet; simpl.
    rewrite <- app_assoc.
    repeat split; auto.
  - apply reports_not_calls.
Qed.

Lemma flush_quiet (br : Broker) (st : state) :
  quiet st ->
  exists n st' rs,
    flush br st = (Ok n, st') /\
    idles st st' (EvFlush :: rs) /\
    Forall (fun e => is_call e = false) rs /\
    queue (st_producer st') = [].
Proof.
  intros Hq.
  unfold flush, bind, get_producer, emit; simpl.
  rewrite deliver_quiet by exact Hq.
  simpl.
  do 3 eexists; split; [reflexivity | split; [ | split ]].
  - unfold idles, quiet; simpl.
    rewrite <- app_assoc.
    repeat split; auto.
  - apply reports_not_calls.
  - reflexivity.
Qed.

(* ----------------------------------------------------------------- *)
(** ** One iteration of the loop *)

Lemma bind_run {A B : Type} (c : M A) (k : A -> M B) (st st1 : state)
    (r : result A) :
  c st = (r, st1) ->
  bind c k st = match r with
                | Ok a => k a st1
                | Raise e => (Raise e, st1)
                end.
Proof. intros H; unfold bind; rewrite H; destruct r; reflexivity. Qed.

Lemma no_produce_among (evs : list event) :
  Forall (fun e => is_call e = false) evs -> filter is_produce evs = [].
Proof.
  induction 1 as [| e evs He Hevs IH]; simpl; [reflexivity | ].
  destruct e; simpl in *; try discriminate; exact IH.
Qed.

Lemma idles_refl (st : state) : quiet st -> idles st st [].
Proof.
  intros Hq; unfold idles; rewrite app_nil_r; repeat split; auto.
Qed.

Lemma idles_trans (st st1 st2 : state) (evs1 evs2 : list event) :
  idles st st1 evs1 -> idles st1 st2 evs2 -> idles st st2 (evs1 ++ evs2).
Proof.
  unfold idles.
  intros (Hd1 & Hf1 & Hp1 & _ & Ht1) (Hd2 & Hf2 & Hp2 & Hq2 & Ht2).
  rewrite Hd2, Hf2, Hp2, Ht2, Ht1, app_assoc.
  repeat split; auto.
Qed.

Lemma idles_quiet (st st' : state) (evs : list event) :
  idles st st' evs -> quiet st'.
Proof. unfold idles; tauto. Qed.

Lemma logger_idles (lvl : level) (msg : log_msg) (st : state) :
  quiet st ->
  exists st', logger lvl msg st = (Ok tt, st') /\ idles st st' [EvLog lvl msg].
Proof.
  intros Hq; eexists; split; [reflexivity | ].
  unfold idles, quiet; simpl; repeat split; auto.
Qed.

Section Iteration.

Variable br : Broker.
Variable topic : pystr.
Variable total_rows : Z.

(** Lines 98 to 105 on an integer label: only polls, flushes and a log
    line. *)
Lemma housekeeping_integer (i : Z) (st : state) :
  quiet st ->
  exists st' evs,
    housekeeping br total_rows (LInt i) st = (Ok tt, st') /\
    idles st st' evs /\
    filter is_produce evs = [].
Proof.
  intros Hq.
  unfold housekeeping.
  rewrite (bind_run _ _ st st (Ok (i + 1))) by reflexivity.
  assert (Hpoll : exists st1 evs1,
             (if (i + 1) mod 100 =? 0 then poll br 0 ;; ret tt else ret tt) st
             = (Ok tt, st1) /\ idles st st1 evs1 /\
             filter is_produce evs1 = []).
  { destruct ((i + 1) mod 100 =? 0).
    - destruct (poll_quiet br 0 st Hq) as (n & st1 & rs & Hrun & Hid & Hrs).
      exists st1, (EvPoll :: rs); split; [ | split; [exact Hid | ]].
      + rewrite (bind_run _ _ _ _ _ Hrun); reflexivity.
      + simpl; apply no_produce_among, Hrs.
    - exists st, []; split; [reflexivity | split; [ | reflexivity]].
      apply idles_refl, Hq. }
  destruct Hpoll as (st1 & evs1 & Hrun1 & Hid1 & Hno1).
  rewrite (bind_run _ _ _ _ _ Hrun1).
  rewrite (bind_run _ _ st1 st1 (Ok (i + 1))) by reflexivity.
  destruct ((i + 1) mod 10000 =? 0).
  - destruct (flush_quiet br st1 (idles_quiet _ _ _ Hid1))
      as (n & st2 & rs & Hrun2 & Hid2 & Hrs & _).
    rewrite (bind_run _ _ _ _ _ Hrun2).
    rewrite (bind_run _ _ st2 st2 (Ok (i + 1))) by reflexivity.
    destruct (logger_idles INFO (LogSent (i + 1) total_rows) st2
                (idles_quiet _ _ _ Hid2)) as (st3 & Hrun3 & Hid3).
    exists st3, (evs1 ++ (EvFlush :: rs) ++ [EvLog INFO (LogSent (i + 1) total_rows)]).
    split; [exact Hrun3 | split].
    + eapply idles_trans; [exact Hid1 | ].
      eapply idles_trans; [exact Hid2 | exact Hid3].
    + rewrite !filter_app, Hno1; simpl.
      rewrite (no_produce_among rs Hrs); reflexivity.
  - exists st1, evs1; auto.
Qed.

(** On any other label [idx + 1] raises before anything is done. *)
Lemma housekeeping_string (s : pystr) (st : state) :
  housekeeping br total_rows (LStr s) st = (Raise TypeError, st).
Proof. reflexivity. Qed.

(** The [except] clause: a log line, [failed += 1], a poll. *)
Lemma on_row_error_spec (idx : label) (e : exn) (st : state) :
  quiet st ->
  exists st' evs,
    on_row_error br idx e st = (Ok tt, st') /\
    st_df st' = st_df st /\
    st_frame st' = {| successful := successful (st_frame st);
                      failed := failed (st_frame st) + 1 |} /\
    produced (st_producer st') = produced (st_producer st) /\
    quiet st' /\
    st_trace st' = st_trace st ++ evs /\
    filter is_produce evs = [].
Proof.
  intros Hq.
  unfold on_row_error, incr_failed.
  set (st1 := {| st_df := st_df st; st_producer := st_producer st;
                 st_frame := {| successful := successful (st_frame st);
                                failed := failed (st_frame st) + 1 |};
                 st_trace := st_trace st ++ [EvLog ERROR (LogRowError idx e)] |}).
  assert (Hq1 : quiet st1) by exact Hq.
  destruct (poll_quiet br 0 st1 Hq1) as (n & st2 & rs & Hrun & Hid & Hrs).
  destruct Hid as (Hd & Hf & Hp & Hq2 & Ht).
  exists st2, (EvLog ERROR (LogRowError idx e) :: EvPoll :: rs).
  split.
  - unfold bind at 1 2 3; simpl.
    fold st1.
    rewrite (bind_run _ _ _ _ _ Hrun); reflexivity.
  - rewrite Hd, Hf, Hp, Ht; simpl.
    rewrite <- app_assoc.
    repeat split; auto.
    apply no_produce_among, Hrs.
Qed.

End Iteration.

Section Loop.

Variable br : Broker.
Variable topic : pystr.
Variable total_rows : Z.

Lemma produce_spec (payload : pybytes) (st : state) :
  quiet st ->
  let m := {| msg_topic := topic; msg_value := payload |} in
  let verdict := enqueue br (produced (st_producer st)) m in
  exists st1,
    produce br topic payload ack_callback st =
      (match verdict with
       | None => Ok tt
       | Some pe => Raise (raised_by_produce pe)
       end, st1) /\
    st_df st1 = st_df st /\
    st_frame st1 = st_frame st /\
    produced (st_producer st1) = S (produced (st_producer st)) /\
    quiet st1 /\
    st_trace st1 = st_trace st ++
      [EvProduce m ack_callback
         (match verdict with None => true | Some _ => false end)].
Proof.
  intros Hq m verdict.
  unfold produce, bind, get_producer; simpl.
  fold m; fold verdict.
  destruct verdict as [pe |]; simpl; eexists; split; try reflexivity;
    simpl; repeat split; auto.
  unfold quiet; simpl.
  apply Forall_app; split; [exact Hq | ].
  constructor; [reflexivity | constructor].
Qed.

(** The body of the [try]: its outcome is the fate of the row. *)
Lemma send_row_spec (idx : label) (row : Series) (st : state) :
  quiet st ->
  let n := produced (st_producer st) in
  let ft := fate_of (enqueue br) topic n idx row in
  exists r st1 evs,
    send_row br topic total_rows idx row st = (r, st1) /\
    match r with
    | Ok _ => raised ft = false
    | Raise e => raised ft = true /\ is_Exception e = true
    end /\
    st_df st1 = st_df st /\
    st_frame st1 =
      {| successful := successful (st_frame st) +
                       match ft with Sent | CountedTwice => 1 | _ => 0 end;
         failed := failed (st_frame st) |} /\
    produced (st_producer st1) = (n + calls_produce ft)%nat /\
    quiet st1 /\
    st_trace st1 = st_trace st ++ evs /\
    filter is_produce evs = planned (enqueue br) topic n [(idx, row)].
Proof.
  intros Hq n ft.
  destruct (encode_row_total row) as [payload Henc].
  unfold send_row.
  rewrite (bind_run _ _ st st (encode_row row)) by reflexivity.
  subst ft; unfold fate_of; simpl planned; rewrite Henc.
  destruct (produce_spec payload st Hq)
    as (st1 & Hrun1 & Hd1 & Hf1 & Hp1 & Hq1 & Ht1).
  rewrite (bind_run _ _ _ _ _ Hrun1).
  fold n in Hrun1, Hp1, Ht1 |- *.
  destruct (enqueue br n {| msg_topic := topic; msg_value := payload |})
    as [pe |] eqn:Henq.
  - (* produce raised *)
    exists (Raise (raised_by_produce pe)), st1,
      [EvProduce {| msg_topic := topic; msg_value := payload |}
         ack_callback false].
    split; [reflexivity | ].
    split; [split; [reflexivity | destruct pe; reflexivity] | ].
    rewrite Hd1, Hf1, Hp1, Ht1, Z.add_0_r.
    destruct (st_frame st); simpl.
    repeat split; auto; lia.
  - (* the message is queued *)
    set (st2 := {| st_df := st_df st1; st_producer := st_producer st1;
                   st_frame := {| successful := successful (st_frame st1) + 1;
                                  failed := failed (st_frame st1) |};
                   st_trace := st_trace st1 |}).
    assert (Hrun2 : incr_successful st1 = (Ok tt, st2)) by reflexivity.
    assert (Hq2 : quiet st2) by exact Hq1.
    rewrite (bind_run _ _ _ _ _ Hrun2).
    destruct idx as [i | s].
    + destruct (housekeeping_integer br total_rows i st2 Hq2)
        as (st3 & evs & Hrun3 & (Hd3 & Hf3 & Hp3 & Hq3 & Ht3) & Hno).
      exists (Ok tt), st3,
        (EvProduce {| msg_topic := topic; msg_value := payload |}
           ack_callback true :: evs).
      split; [exact Hrun3 | ].
      split; [reflexivity | ].
      rewrite Hd3, Hf3, Hp3, Ht3; simpl.
      rewrite Hd1, Hf1, Hp1, Ht1, <- app_assoc; simpl.
      rewrite Hno.
      repeat split; auto; lia.
    + exists (Raise TypeError), st2,
        [EvProduce {| msg_topic := topic; msg_value := payload |}
           ack_callback true].
      split; [reflexivity | ].
      split; [split; reflexivity | ].
      simpl.
      rewrite Hd1, Hf1, Hp1, Ht1.
      repeat split; auto; lia.
Qed.

(** One turn of the loop: the [try] with its [except] clause.  It never
    lets an exception out, and counts the row as its fate says. *)
Lemma iteration_spec (idx : label) (row : Series) (st : state) :
  quiet st ->
  let n := produced (st_producer st) in
  let ft := fate_of (enqueue br) topic n idx row in
  exists st' evs,
    try_except (send_row br topic total_rows idx row) is_Exception
      (on_row_error br idx) st = (Ok tt, st') /\
    st_df st' = st_df st /\
    st_frame st' = count_row (st_frame st) ft /\
    produced (st_producer st') = (n + calls_produce ft)%nat /\
    quiet st' /\
    st_trace st' = st_trace st ++ evs /\
    filter is_produce evs = planned (enqueue br) topic n [(idx, row)].
Proof.
  intros Hq; cbv zeta.
  pose proof (send_row_spec idx row st Hq) as Hbody; cbv zeta in Hbody.
  destruct Hbody
    as (r & st1 & evs1 & Hrun & Hr & Hd1 & Hf1 & Hp1 & Hq1 & Ht1 & Hev1).
  set (ft := fate_of (enqueue br) topic (produced (st_producer st)) idx row)
    in *.
  unfold try_except; rewrite Hrun.
  destruct r as [[] | e].
  - exists st1, evs1.
    unfold count_row; rewrite Hr, Z.add_0_r.
    repeat split; auto.
  - destruct Hr as [Hraised Hexc]; rewrite Hexc.
    destruct (on_row_error_spec br idx e st1 Hq1)
      as (st2 & evs2 & Hrun2 & Hd2 & Hf2 & Hp2 & Hq2 & Ht2 & Hev2).
    exists st2, (evs1 ++ evs2).
    unfold count_row; rewrite Hraised.
    rewrite Hd2, Hf2, Hp2, Ht2, Hd1, Hf1, Hp1, Ht1; simpl.
    rewrite filter_app, Hev1, Hev2, app_nil_r, <- app_assoc.
    repeat split; auto.
Qed.

End Loop.

(* ----------------------------------------------------------------- *)
(** ** The whole loop, and the function around it *)

Section Whole_loop.

Variable br : Broker.
Variable topic : pystr.
Variable total_rows : Z.

Lemma for_rows_app (its1 its2 : list (label * Series)) (st : state) :
  for_rows br topic total_rows (its1 ++ its2) st =
  match for_rows br topic total_rows its1 st with
  | (Ok _, st1) => for_rows br topic total_rows its2 st1
  | (Raise e, st1) => (Raise e, st1)
  end.
Proof.
  revert st; induction its1 as [| [idx row] its1 IH]; intros st; simpl.
  - reflexivity.
  - unfold bind.
    destruct (try_except _ _ _ st) as [[u | e] st1]; [apply IH | reflexivity].
Qed.

Lemma planned_cons (n : nat) (idx : label) (row : Series)
    (rest : list (label * Series)) :
  planned (enqueue br) topic n ((idx, row) :: rest) =
  planned (enqueue br) topic n [(idx, row)] ++
  planned (enqueue br) topic
    (n + calls_produce (fate_of (enqueue br) topic n idx row)) rest.
Proof.
  unfold fate_of; simpl.
  destruct (encode_row row) as [payload | e]; simpl.
  - replace (n + calls_produce _)%nat with (S n); [reflexivity | ].
    destruct (enqueue br n _); [ | destruct (label_succ idx)]; simpl; lia.
  - rewrite Nat.add_0_r; reflexivity.
Qed.

(** The loop runs over every row, never lets an exception out, and leaves
    the counters at the tally of the fates. *)
Lemma for_rows_spec (its : list (label * Series)) (st : state) :
  quiet st ->
  exists st' evs,
    for_rows br topic total_rows its st = (Ok tt, st') /\
    st_df st' = st_df st /\
    st_frame st' =
      tally (st_frame st)
        (fates (enqueue br) topic (produced (st_producer st)) its) /\
    quiet st' /\
    st_trace st' = st_trace st ++ evs /\
    filter is_produce evs =
      planned (enqueue br) topic (produced (st_producer st)) its.
Proof.
  revert st; induction its as [| [idx row] rest IH]; intros st Hq.
  - exists st, []; simpl; rewrite app_nil_r; repeat split; auto.
  - pose proof (iteration_spec br topic total_rows idx row st Hq) as Hit.
    cbv zeta in Hit.
    destruct Hit as (st1 & evs1 & Hrun1 & Hd1 & Hf1 & Hp1 & Hq1 & Ht1 & Hev1).
    destruct (IH st1 Hq1) as (st2 & evs2 & Hrun2 & Hd2 & Hf2 & Hq2 & Ht2 & Hev2).
    exists st2, (evs1 ++ evs2).
    split.
    + cbn [for_rows]; rewrite (bind_run _ _ _ _ _ Hrun1); exact Hrun2.
    + rewrite planned_cons, filter_app, Hev1, Hev2, Hp1.
      rewrite Hd2, Hd1, Hf2, Hf1, Ht2, Ht1, Hp1, app_assoc.
      repeat split; auto.
Qed.

End Whole_loop.

(** A list of fates never takes a counter down. *)
Lemma tally_failed_nonneg (fts : list fate) (f : Frame) :
  0 <= failed f -> 0 <= failed (tally f fts).
Proof.
  revert f; induction fts as [| ft fts IH]; intros f Hf; simpl; [exact Hf | ].
  apply IH; simpl.
  destruct (raised ft); lia.
Qed.

(** Lines 79 to 122 from a state whose queue is quiet: the rows are sent,
    then comes the final flush, after which nothing is called on the
    producer any more, and the result says whether [failed] is zero. *)
Lemma send_rows_spec (br : Broker) (topic : pystr) (st : state) :
  quiet st ->
  exists st' pre post,
    send_rows br topic st = (Ok (failed (st_frame st') =? 0), st') /\
    st_df st' = st_df st /\
    st_frame st' =
      tally {| successful := 0; failed := 0 |}
        (fates (enqueue br) topic (produced (st_producer st))
           (iterrows (st_df st))) /\
    queue (st_producer st') = [] /\
    st_trace st' = st_trace st ++ pre ++ EvFlush :: post /\
    filter is_produce pre =
      planned (enqueue br) topic (produced (st_producer st))
        (iterrows (st_df st)) /\
    Forall (fun e => is_call e = false) post.
Proof.
  intros Hq.
  unfold send_rows.
  rewrite (bind_run _ _ st st (Ok (st_df st))) by reflexivity.
  set (st1 := {| st_df := st_df st; st_producer := st_producer st;
                 st_frame := {| successful := 0; failed := 0 |};
                 st_trace := st_trace st ++ [EvLog INFO (LogStarting (len (st_df st)))] |}).
  assert (Hq1 : quiet st1) by exact Hq.
  unfold bind at 1 2; simpl; fold st1.
  destruct (for_rows_spec br topic (len (st_df st)) (iterrows (st_df st)) st1 Hq1)
    as (st2 & evs2 & Hrun2 & Hd2 & Hf2 & Hq2 & Ht2 & Hev2).
  rewrite (bind_run _ _ _ _ _ Hrun2).
  destruct (logger_idles INFO LogFlushing st2 Hq2)
    as (st3 & Hrun3 & Hd3 & Hf3 & Hp3 & Hq3 & Ht3).
  rewrite (bind_run _ _ _ _ _ Hrun3).
  destruct (flush_quiet br st3 Hq3)
    as (n & st4 & rs & Hrun4 & (Hd4 & Hf4 & Hp4 & Hq4 & Ht4) & Hrs & Hempty).
  rewrite (bind_run _ _ _ _ _ Hrun4).
  rewrite (bind_run _ _ st4 st4 (Ok (st_frame st4))) by reflexivity.
  assert (Hframe : st_frame st4 =
            tally {| successful := 0; failed := 0 |}
              (fates (enqueue br) topic (produced (st_producer st))
                 (iterrows (st_df st)))).
  { rewrite Hf4, Hf3, Hf2; reflexivity. }
  assert (Hnonneg : 0 <= failed (st_frame st4)).
  { rewrite Hframe; apply tally_failed_nonneg; simpl; lia. }
  assert (Htrace : forall tail,
            (st_trace st4 ++ tail =
             st_trace st ++
             (EvLog INFO (LogStarting (len (st_df st))) :: evs2 ++
              [EvLog INFO LogFlushing]) ++ EvFlush :: rs ++ tail)).
  { intros tail; rewrite Ht4, Ht3, Ht2; subst st1; simpl.
    repeat (rewrite <- app_assoc; simpl); reflexivity. }
  assert (Hpre : filter is_produce
                   (EvLog INFO (LogStarting (len (st_df st))) :: evs2 ++
                    [EvLog INFO LogFlushing]) =
                 planned (enqueue br) topic (produced (st_producer st))
                   (iterrows (st_df st))).
  { simpl; rewrite filter_app, Hev2; simpl; apply app_nil_r. }
  unfold bind at 1; simpl.
  set (done := EvLog INFO (LogCompleted (successful (st_frame st4))
                             (failed (st_frame st4)))).
  set (warn := EvLog WARNING (LogRowsFailed (failed (st_frame st4)))).
  destruct (failed (st_frame st4) >? 0) eqn:Hpos.
  - exists {| st_df := st_df st4; st_producer := st_producer st4;
              st_frame := st_frame st4;
              st_trace := (st_trace st4 ++ [done]) ++ [warn] |},
      (EvLog INFO (LogStarting (len (st_df st))) :: evs2 ++
       [EvLog INFO LogFlushing]),
      (rs ++ [done; warn]).
    cbn [st_df st_producer st_frame st_trace].
    split; [ | split; [ | split; [ | split; [ | split; [ | split]]]]].
    + replace (failed (st_frame st4) =? 0) with false; [reflexivity | ].
      symmetry; apply Z.eqb_neq; apply Z.gtb_lt in Hpos; lia.
    + rewrite Hd4, Hd3, Hd2; reflexivity.
    + exact Hframe.
    + exact Hempty.
    + rewrite <- app_assoc; apply Htrace.
    + exact Hpre.
    + apply Forall_app; split; [exact Hrs | repeat constructor].
  - exists {| st_df := st_df st4; st_producer := st_producer st4;
              st_frame := st_frame st4;
              st_trace := st_trace st4 ++ [done] |},
      (EvLog INFO (LogStarting (len (st_df st))) :: evs2 ++
       [EvLog INFO LogFlushing]),
      (rs ++ [done]).
    cbn [st_df st_producer st_frame st_trace].
    split; [ | split; [ | split; [ | split; [ | split; [ | split]]]]].
    + replace (failed (st_frame st4) =? 0) with true; [reflexivity | ].
      symmetry; apply Z.eqb_eq.
      rewrite Z.gtb_ltb in Hpos; apply Z.ltb_ge in Hpos; lia.
    + rewrite Hd4, Hd3, Hd2; reflexivity.
    + exact Hframe.
    + exact Hempty.
    + apply Htrace.
    + exact Hpre.
    + apply Forall_app; split; [exact Hrs | repeat constructor].
Qed.


(** [send_to_kafka] as a whole: without a producer it returns [False] at
    once; with one, it sends the rows, flushes, and returns whether
    [failed] is zero. *)
Lemma send_to_kafka_spec (br : Broker) (df : DataFrame) (topic servers : pystr) :
  match connect br (producer_config servers) with
  | Some err =>
      send_to_kafka br df topic servers =
      NoProducer (KafkaException err)
        [EvLog INFO (LogConnecting servers); EvLog INFO (LogTopic topic);
         EvLog ERROR (LogProducerFailed (KafkaException err))]
  | None =>
      exists st pre post,
        send_to_kafka br df topic servers =
          Ran (Ok (failed (st_frame st) =? 0)) st /\
        st_df st = df /\
        st_frame st =
          tally {| successful := 0; failed := 0 |}
            (fates (enqueue br) topic 0 (iterrows df)) /\
        queue (st_producer st) = [] /\
        st_trace st = pre ++ EvFlush :: post /\
        filter is_produce pre = planned (enqueue br) topic 0 (iterrows df) /\
        Forall (fun e => is_call e = false) post
  end.
Proof.
  unfold send_to_kafka, Kafka.new.
  destruct (connect br (producer_config servers)) as [err |]; [reflexivity | ].
  set (st0 := {| st_df := df;
                 st_producer := {| queue := []; produced := 0;
                                   accepted := 0; polls := 0 |};
                 st_frame := {| successful := 0; failed := 0 |};
                 st_trace := [EvLog INFO (LogConnecting servers);
                              EvLog INFO (LogTopic topic)] |}).
  assert (Hq0 : quiet st0) by constructor.
  destruct (send_rows_spec br topic st0 Hq0)
    as (st & pre & post & Hrun & Hd & Hf & Hempty & Ht & Hpre & Hpost).
  rewrite Hrun.
  exists st, (st_trace st0 ++ pre), post.
  rewrite <- app_assoc, filter_app.
  repeat split; auto.
Qed.

(* ----------------------------------------------------------------- *)
(** ** Payloads, fates and tallies *)

Lemma payloads_app (t1 t2 : list event) :
  payloads (t1 ++ t2) = payloads t1 ++ payloads t2.
Proof. unfold payloads; apply flat_map_app. Qed.

Lemma payloads_filter (t : list event) :
  payloads (filter is_produce t) = payloads t.
Proof.
  induction t as [| e t IH]; simpl; [reflexivity | ].
  destruct e; simpl; rewrite ?IH; reflexivity.
Qed.

Lemma payloads_no_calls (t : list event) :
  Forall (fun e => is_call e = false) t -> payloads t = [].
Proof.
  intros H; rewrite <- payloads_filter, (no_produce_among t H); reflexivity.
Qed.

Lemma payloads_planned (enq : nat -> Message -> option produce_error)
    (topic : pystr) (its : list (label * Series)) (n : nat) :
  payloads (planned enq topic n its) = row_payloads its.
Proof.
  revert n; induction its as [| [idx row] its IH]; intros n; simpl.
  - reflexivity.
  - destruct (encode_row row) as [b | e]; simpl; rewrite IH; reflexivity.
Qed.

Lemma row_payloads_length (its : list (label * Series)) :
  List.length (row_payloads its) = List.length its.
Proof.
  induction its as [| [idx row] its IH]; simpl; [reflexivity | ].
  destruct (encode_row_total row) as [b Hb]; rewrite Hb; simpl.
  rewrite IH; reflexivity.
Qed.

Lemma planned_callbacks (enq : nat -> Message -> option produce_error)
    (topic : pystr) (its : list (label * Series)) (n : nat) (m : Message)
    (cb : Callback) (q : bool) :
  In (EvProduce m cb q) (planned enq topic n its) -> cb = ack_callback.
Proof.
  revert n; induction its as [| [idx row] its IH]; intros n; simpl.
  - intros [].
  - destruct (encode_row row) as [b | e]; [ | apply IH].
    intros [Heq | Hin]; [ | exact (IH _ Hin)].
    inversion Heq; reflexivity.
Qed.

Lemma iterrows_length (df : DataFrame) :
  List.length (iterrows df) = List.length (rows df).
Proof. unfold iterrows; apply length_map. Qed.

Lemma integer_labels_iterrows (df : DataFrame) :
  integer_index df = true -> integer_labels (iterrows df) = true.
Proof.
  unfold integer_index, integer_labels, iterrows.
  intros H; rewrite forallb_forall in *.
  intros it Hin; apply in_map_iff in Hin as (r & <- & Hr); simpl.
  exact (H r Hr).
Qed.

(** On integer labels the body cannot raise after [successful += 1]: every
    row adds one to exactly one counter. *)
Lemma tally_exact (enq : nat -> Message -> option produce_error)
    (topic : pystr) (its : list (label * Series)) (n : nat) (f : Frame) :
  integer_labels its = true ->
  successful (tally f (fates enq topic n its)) +
  failed (tally f (fates enq topic n its)) =
  successful f + failed f + Z.of_nat (List.length its).
Proof.
  revert n f; induction its as [| [idx row] its IH]; intros n f Hint.
  - simpl; lia.
  - simpl in Hint; apply andb_true_iff in Hint as [Hidx Hrest].
    cbn [fates tally fold_left List.length].
    fold (tally (count_row f (fate_of enq topic n idx row))
            (fates enq topic (n + calls_produce (fate_of enq topic n idx row)) its)).
    rewrite IH by exact Hrest.
    assert (Hone : successful (count_row f (fate_of enq topic n idx row)) +
                   failed (count_row f (fate_of enq topic n idx row)) =
                   successful f + failed f + 1).
    { unfold fate_of.
      destruct (encode_row row); [ | simpl; lia].
      destruct (enq n _); [simpl; lia | ].
      destruct idx; [simpl; lia | discriminate]. }
    lia.
Qed.

(** When, besides, [produce] accepts every message, every row is a
    success. *)
Lemma tally_all_sent (enq : nat -> Message -> option produce_error)
    (topic : pystr) (its : list (label * Series)) (n : nat) (f : Frame) :
  integer_labels its = true ->
  (forall k m, enq k m = None) ->
  tally f (fates enq topic n its) =
  {| successful := successful f + Z.of_nat (List.length its);
     failed := failed f |}.
Proof.
  intros Hint Henq.
  revert n f Hint; induction its as [| [idx row] its IH]; intros n f Hint.
  - destruct f; simpl; f_equal; lia.
  - simpl in Hint; apply andb_true_iff in Hint as [Hidx Hrest].
    cbn [fates tally fold_left].
    fold (tally (count_row f (fate_of enq topic n idx row))
            (fates enq topic (n + calls_produce (fate_of enq topic n idx row)) its)).
    rewrite IH by exact Hrest.
    unfold fate_of.
    destruct (encode_row_total row) as [b Hb]; rewrite Hb, Henq.
    destruct idx; [ | discriminate].
    cbn [label_succ count_row raised successful failed List.length].
    f_equal; lia.
Qed.

(** With integer index labels the counters are exact after any part of the
    loop: they grow together by the number of rows gone through. *)
Lemma counters_exact_on_integer_labels (br : Broker) (topic : pystr)
    (total_rows : Z) (its : list (label * Series)) (st : state) :
  quiet st ->
  integer_labels its = true ->
  exists st',
    for_rows br topic total_rows its st = (Ok tt, st') /\
    successful (st_frame st') + failed (st_frame st') =
    successful (st_frame st) + failed (st_frame st) + Z.of_nat (List.length its).
Proof.
  intros Hq Hint.
  destruct (for_rows_spec br topic total_rows its st Hq)
    as (st' & evs & Hrun & _ & Hf & _).
  exists st'; split; [exact Hrun | ].
  rewrite Hf; apply tally_exact, Hint.
Qed.

(** And so they are when the function returns: each row counted once. *)
Lemma counters_exact_on_integer_index (br : Broker) (df : DataFrame)
    (topic servers : pystr) :
  integer_index df = true ->
  connect br (producer_config servers) = None ->
  exists st b,
    send_to_kafka br df topic servers = Ran (Ok b) st /\
    successful (st_frame st) + failed (st_frame st) = len df.
Proof.
  intros Hint Hconn.
  pose proof (send_to_kafka_spec br df topic servers) as Hspec.
  rewrite Hconn in Hspec.
  destruct Hspec as (st & pre & post & Hrun & _ & Hf & _).
  exists st, (failed (st_frame st) =? 0); split; [exact Hrun | ].
  rewrite Hf, tally_exact by (apply integer_labels_iterrows, Hint).
  rewrite iterrows_length; unfold len; simpl; lia.
Qed.

(* ================================================================= *)
(** * The claims *)

(** C1 (the counters add up to the rows seen, each row counted once):
    the code breaks this.  [successful += 1] stands before [idx + 1] in the
    same [try], and [idx] is the index label, not a position.  On the
    DataFrame [pd.read_csv] makes of the lines [a,b] and [x,1,2], whose
    only row is labelled ['x'], the message is queued and delivered, then
    [idx + 1] raises [TypeError] and the handler counts the row as failed
    too: one row seen, [successful = 1] and [failed = 1], and the function
    returns [False]. *)
Theorem row_counted_twice_on_string_label :
  let sr := send_to_kafka good_broker labelled_df
              KAFKA_TOPIC KAFKA_BOOTSTRAP_SERVERS in
  len labelled_df = 1 /\
  frame_of sr = Some {| successful := 1; failed := 1 |} /\
  returned sr = Ok false /\
  List.length (filter is_produce (trace_of sr)) = 1%nat /\
  In (EvReport 0 None) (trace_of sr) /\
  In (EvLog ERROR (LogRowError (LStr (of_string "x")) TypeError)) (trace_of sr) /\
  run (world_with labelled_df good_broker) default_args = 1.
Proof.
  cbv zeta.
  split; [reflexivity | ].
  split; [vm_compute; reflexivity | ].
  split; [vm_compute; reflexivity | ].
  split; [vm_compute; reflexivity | ].
  split; [in_trace | ].
  split; [in_trace | ].
  vm_compute; reflexivity.
Qed.

(* ----------------------------------------------------------------- *)
(** ** [main] and the exit status *)

(** [send_to_kafka] always returns; no exception leaves it. *)
Lemma returned_spec (br : Broker) (df : DataFrame) (topic servers : pystr) :
  returned (send_to_kafka br df topic servers) =
  Ok match send_to_kafka br df topic servers with
     | NoProducer _ _ => false
     | Ran _ st => failed (st_frame st) =? 0
     end.
Proof.
  pose proof (send_to_kafka_spec br df topic servers) as Hspec.
  destruct (connect br (producer_config servers)) as [err |].
  - rewrite Hspec; reflexivity.
  - destruct Hspec as (st & pre & post & Hrun & _); rewrite Hrun; reflexivity.
Qed.

(** The exit status, read off the file system and the result of
    [send_to_kafka]. *)
Lemma run_spec (w : World) (args : Args) :
  run w args =
  match files w (csv_file args) with
  | Some (Parsed df) =>
      match returned (send_to_kafka (broker w) df (arg_topic args)
                        (arg_bootstrap_servers args)) with
      | Ok true => 0
      | _ => 1
      end
  | _ => 1
  end.
Proof.
  unfold run, main, main_body, load_csv.
  destruct (files w (csv_file args)) as [[df | | | |] |]; try reflexivity.
  cbn [read_csv].
  rewrite returned_spec.
  destruct (send_to_kafka _ _ _ _) as [e t | r st]; [reflexivity | ].
  destruct (failed (st_frame st) =? 0); reflexivity.
Qed.

(** C2, what the code does in the scenario of the claim.  Three records
    are produced; the broker reports the delivery of the second as failed.
    The report reaches the callback, which drops it: the counters end at
    3 and 0, not 2 and 1, [send_to_kafka] returns [True] and the exit
    status is 0, not 1. *)
Theorem broker_reported_failure_is_not_counted :
  let sr := send_to_kafka nack_broker sample_df
              (arg_topic default_args) (arg_bootstrap_servers default_args) in
  len sample_df = 3 /\
  In (EvReport 1 (Some (MkKafkaError (-185)))) (trace_of sr) /\
  frame_of sr = Some {| successful := 3; failed := 0 |} /\
  returned sr = Ok true /\
  run (world_with sample_df nack_broker) default_args = 0 /\
  frame_of sr <> Some {| successful := 2; failed := 1 |} /\
  run (world_with sample_df nack_broker) default_args <> 1.
Proof.
  cbv zeta.
  split; [reflexivity | ].
  split; [in_trace | ].
  split; [vm_compute; reflexivity | ].
  split; [vm_compute; reflexivity | ].
  split; [vm_compute; reflexivity | ].
  split; vm_compute; discriminate.
Qed.

(** C2 as amended: a failure is counted when the call of [produce] itself
    raises.  Over three records with integer labels, if the first and third
    calls queue their message and the second raises, the counters end at
    2 and 1, [send_to_kafka] returns [False] and the exit status is 1,
    whatever the delivery reports say. *)
Theorem rejected_second_record_is_counted (w : World) (args : Args)
    (df : DataFrame) (r0 r1 r2 : label * list value) :
  files w (csv_file args) = Some (Parsed df) ->
  rows df = [r0; r1; r2] ->
  integer_index df = true ->
  connect (broker w) (producer_config (arg_bootstrap_servers args)) = None ->
  (forall m, enqueue (broker w) 0 m = None) ->
  (forall m, enqueue (broker w) 1 m <> None) ->
  (forall m, enqueue (broker w) 2 m = None) ->
  exists st,
    send_to_kafka (broker w) df (arg_topic args) (arg_bootstrap_servers args)
    = Ran (Ok false) st /\
    len df = 3 /\
    st_frame st = {| successful := 2; failed := 1 |} /\
    run w args = 1.
Proof.
  intros Hfile Hrows Hint Hconn Hfirst Hsecond Hthird.
  pose proof (send_to_kafka_spec (broker w) df (arg_topic args)
                (arg_bootstrap_servers args)) as Hspec.
  rewrite Hconn in Hspec.
  destruct Hspec as (st & pre & post & Hrun & _ & Hf & _).
  assert (Hframe : st_frame st = {| successful := 2; failed := 1 |}).
  { rewrite Hf.
    unfold integer_index in Hint; unfold iterrows.
    rewrite Hrows in *.
    destruct r0 as [[i0 | s0] v0]; [ | discriminate].
    destruct r1 as [[i1 | s1] v1]; [ | discriminate].
    destruct r2 as [[i2 | s2] v2]; [ | discriminate].
    assert (F0 : forall row, fate_of (enqueue (broker w)) (arg_topic args) 0
                                (LInt i0) row = Sent).
    { intros row; unfold fate_of.
      destruct (encode_row_total row) as [b Hb]; rewrite Hb, Hfirst.
      reflexivity. }
    assert (F1 : forall row, fate_of (enqueue (broker w)) (arg_topic args) 1
                                (LInt i1) row = Rejected).
    { intros row; unfold fate_of.
      destruct (encode_row_total row) as [b Hb]; rewrite Hb.
      destruct (enqueue (broker w) 1 _) as [pe |] eqn:Hpe;
        [reflexivity | exfalso; exact (Hsecond _ Hpe)]. }
    assert (F2 : forall row, fate_of (enqueue (broker w)) (arg_topic args) 2
                                (LInt i2) row = Sent).
    { intros row; unfold fate_of.
      destruct (encode_row_total row) as [b Hb]; rewrite Hb, Hthird.
      reflexivity. }
    cbn [map fst snd fates].
    rewrite F0; cbn [calls_produce Nat.add].
    rewrite F1; cbn [calls_produce Nat.add].
    rewrite F2.
    reflexivity. }
  exists st.
  rewrite Hframe in Hrun; cbn [failed] in Hrun.
  split; [exact Hrun | ].
  split; [unfold len; rewrite Hrows; reflexivity | ].
  split; [exact Hframe | ].
  rewrite run_spec, Hfile, Hrun; reflexivity.
Qed.

Lemma rejected_second_record_witness :
  exists st,
    send_to_kafka full_queue_broker sample_df (arg_topic default_args)
      (arg_bootstrap_servers default_args) = Ran (Ok false) st /\
    len sample_df = 3 /\
    st_frame st = {| successful := 2; failed := 1 |} /\
    run (world_with sample_df full_queue_broker) default_args = 1.
Proof.
  apply (rejected_second_record_is_counted
           (world_with sample_df full_queue_broker) default_args sample_df
           (sample_row 0) (sample_row 1) (sample_row 2));
    try reflexivity; intros m; discriminate.
Defined.

(** C3 (encoding is pure and deterministic).  The payload of a row is a
    function of the row's dictionary alone, and that function is what every
    run hands to [produce]: whatever the broker does and wherever a row
    stands, the payloads of a run are the encodings of its rows in order
    (none when no producer could be created); in particular the same record
    sent twice gives the same bytes twice. *)
Theorem encoding_is_deterministic (br : Broker) (df : DataFrame)
    (topic servers : pystr) :
  (forall r1 r2 : Series, to_dict r1 = to_dict r2 -> encode_row r1 = encode_row r2) /\
  payloads (trace_of (send_to_kafka br df topic servers)) =
    match connect br (producer_config servers) with
    | None => row_payloads (iterrows df)
    | Some _ => []
    end /\
  (forall (cols : list pystr) (idx1 idx2 : label) (vals : list value),
      exists b,
        row_payloads (iterrows {| columns := cols;
                                  rows := [(idx1, vals); (idx2, vals)] |})
        = [b; b]).
Proof.
  split; [ | split].
  - intros r1 r2 Hsame; unfold encode_row; rewrite Hsame; reflexivity.
  - pose proof (send_to_kafka_spec br df topic servers) as Hspec.
    destruct (connect br (producer_config servers)) as [err |].
    + rewrite Hspec; reflexivity.
    + destruct Hspec as (st & pre & post & Hrun & _ & _ & _ & Ht & Hpre & Hpost).
      rewrite Hrun; cbn [trace_of]; rewrite Ht.
      change (EvFlush :: post) with ([EvFlush] ++ post).
      rewrite !payloads_app, (payloads_no_calls post Hpost).
      rewrite <- (payloads_filter pre), Hpre, payloads_planned.
      simpl; rewrite app_nil_r; reflexivity.
  - intros cols idx1 idx2 vals.
    destruct (encode_row_total (combine cols vals)) as [b Hb].
    exists b; unfold iterrows, row_payloads; simpl.
    rewrite Hb; reflexivity.
Qed.

Lemma encoding_witness :
  encode_row [(of_string "a", VInt 1); (of_string "a", VInt 2)] =
  encode_row [(of_string "a", VInt 2)].
Proof.
  apply (proj1 (encoding_is_deterministic good_broker sample_df [] [])
           [(of_string "a", VInt 1); (of_string "a", VInt 2)]
           [(of_string "a", VInt 2)]).
  vm_compute; reflexivity.
Defined.




(** The two ways [send_to_kafka] ends. *)
Lemma send_to_kafka_cases (br : Broker) (df : DataFrame) (topic servers : pystr) :
  (exists e t, send_to_kafka br df topic servers = NoProducer e t /\
               is_Exception e = true) \/
  (exists st, send_to_kafka br df topic servers =
                Ran (Ok (failed (st_frame st) =? 0)) st /\
              0 <= failed (st_frame st)).
Proof.
  pose proof (send_to_kafka_spec br df topic servers) as Hspec.
  destruct (connect br (producer_config servers)) as [err |].
  - left; do 2 eexists; split; [exact Hspec | reflexivity].
  - right.
    destruct Hspec as (st & pre & post & Hrun & _ & Hf & _).
    exists st; split; [exact Hrun | ].
    rewrite Hf; apply tally_failed_nonneg; simpl; lia.
Qed.

(** C5 (the exit status reflects whether [failed] is zero).  The process
    ends with status 0 or 1; with 0 exactly when the file was loaded and
    [send_to_kafka] ran to its end with [failed = 0]; and [send_to_kafka]
    returns [True] exactly then, [False] when no producer could be created
    or a row failed. *)
Theorem exit_status_reflects_failed (w : World) (args : Args) :
  (run w args = 0 \/ run w args = 1) /\
  (run w args = 0 <->
   exists df st,
     files w (csv_file args) = Some (Parsed df) /\
     send_to_kafka (broker w) df (arg_topic args) (arg_bootstrap_servers args)
     = Ran (Ok true) st /\
     failed (st_frame st) = 0) /\
  (forall (br : Broker) (df : DataFrame) (topic servers : pystr),
      let sr := send_to_kafka br df topic servers in
      (returned sr = Ok true <->
       exists st, sr = Ran (Ok true) st /\ failed (st_frame st) = 0) /\
      (returned sr = Ok false <->
       (exists e t, sr = NoProducer e t) \/
       (exists st, sr = Ran (Ok false) st /\ failed (st_frame st) > 0))).
Proof.
  assert (Hsend : forall (br : Broker) (df : DataFrame) (topic servers : pystr),
             let sr := send_to_kafka br df topic servers in
             (returned sr = Ok true <->
              exists st, sr = Ran (Ok true) st /\ failed (st_frame st) = 0) /\
             (returned sr = Ok false <->
              (exists e t, sr = NoProducer e t) \/
              (exists st, sr = Ran (Ok false) st /\ failed (st_frame st) > 0))).
  { intros br df topic servers sr; subst sr.
    destruct (send_to_kafka_cases br df topic servers)
      as [(e & t & Hrun & He) | (st & Hrun & Hnonneg)]; rewrite Hrun; simpl.
    - rewrite He; split; split.
      + discriminate.
      + intros (st & Hst & _); discriminate.
      + intros _; left; eauto.
      + reflexivity.
    - destruct (failed (st_frame st) =? 0) eqn:Hz.
      + apply Z.eqb_eq in Hz; split; split.
        * intros _; exists st; auto.
        * reflexivity.
        * discriminate.
        * intros [(e & t & Habs) | (st' & Habs & _)]; discriminate.
      + apply Z.eqb_neq in Hz; split; split.
        * discriminate.
        * intros (st' & Habs & _); discriminate.
        * intros _; right; exists st; split; [reflexivity | lia].
        * reflexivity. }
  split; [ | split; [ | exact Hsend]].
  - rewrite run_spec.
    destruct (files w (csv_file args)) as [[df | | | |] |]; auto.
    destruct (returned _) as [[|] | e]; auto.
  - rewrite run_spec; split.
    + destruct (files w (csv_file args)) as [[df | | | |] |]; try discriminate.
      destruct (returned _) as [[|] | e] eqn:Hret; try discriminate.
      intros _.
      apply (proj1 (Hsend _ _ _ _)) in Hret as (st & Hrun & Hzero).
      exists df, st; auto.
    + intros (df & st & Hfile & Hrun & _).
      rewrite Hfile, Hrun; reflexivity.
Qed.

(** C6 (errors of one row stay with that row).  Wherever a row stands in
    the loop, in any state whose queued callbacks are the script's: the
    rows before it are gone through, its own turn ends normally even when
    the body raised, in which case [failed] has grown by one, and every
    row after it is still encoded and handed to [produce]. *)
Theorem row_errors_are_isolated (br : Broker) (topic : pystr) (total_rows : Z)
    (before after : list (label * Series)) (idx : label) (row : Series)
    (st : state) :
  quiet st ->
  exists st1 st2 st3 evs,
    for_rows br topic total_rows before st = (Ok tt, st1) /\
    try_except (send_row br topic total_rows idx row) is_Exception
      (on_row_error br idx) st1 = (Ok tt, st2) /\
    (forall e s, send_row br topic total_rows idx row st1 = (Raise e, s) ->
                 failed (st_frame st2) = failed (st_frame st1) + 1) /\
    for_rows br topic total_rows after st2 = (Ok tt, st3) /\
    for_rows br topic total_rows (before ++ (idx, row) :: after) st
    = (Ok tt, st3) /\
    failed (st_frame st2) <= failed (st_frame st3) /\
    st_trace st3 = st_trace st2 ++ evs /\
    payloads evs = row_payloads after /\
    List.length (payloads evs) = List.length after.
Proof.
  intros Hq.
  destruct (for_rows_spec br topic total_rows before st Hq)
    as (st1 & evs1 & Hrun1 & _ & _ & Hq1 & _).
  pose proof (iteration_spec br topic total_rows idx row st1 Hq1) as Hit.
  cbv zeta in Hit.
  destruct Hit as (st2 & evs2 & Hrun2 & _ & Hf2 & _ & Hq2 & _).
  destruct (for_rows_spec br topic total_rows after st2 Hq2)
    as (st3 & evs3 & Hrun3 & _ & Hf3 & _ & Ht3 & Hev3).
  exists st1, st2, st3, evs3.
  split; [exact Hrun1 | ].
  split; [exact Hrun2 | ].
  split.
  { intros e s Hraise.
    pose proof (send_row_spec br topic total_rows idx row st1 Hq1) as Hbody.
    cbv zeta in Hbody.
    destruct Hbody as (r & s' & evs & Hrun & Hr & _).
    rewrite Hraise in Hrun; inversion Hrun; subst r s'.
    destruct Hr as [Hraised _].
    rewrite Hf2; unfold count_row; rewrite Hraised; reflexivity. }
  split; [exact Hrun3 | ].
  split.
  { rewrite for_rows_app, Hrun1.
    cbn [for_rows]; rewrite (bind_run _ _ _ _ _ Hrun2); exact Hrun3. }
  split.
  { rewrite Hf3.
    generalize (fates (enqueue br) topic (produced (st_producer st2)) after).
    generalize (st_frame st2).
    intros f fts; revert f; induction fts as [| ft fts IH]; intros f; simpl.
    - lia.
    - etransitivity; [ | apply IH].
      simpl; destruct (raised ft); lia. }
  split; [exact Ht3 | ].
  assert (Hpay : payloads evs3 = row_payloads after).
  { rewrite <- payloads_filter, Hev3; apply payloads_planned. }
  split; [exact Hpay | ].
  rewrite Hpay; apply row_payloads_length.
Qed.

Lemma row_errors_witness :
  let st0 := {| st_df := sample_df;
                st_producer := {| queue := []; produced := 0;
                                  accepted := 0; polls := 0 |};
                st_frame := {| successful := 0; failed := 0 |};
                st_trace := [] |} in
  exists st1 st2 st3 evs,
    for_rows full_queue_broker (of_string "t") 3 [(LInt 0, [])] st0
    = (Ok tt, st1) /\
    try_except (send_row full_queue_broker (of_string "t") 3 (LInt 1) [])
      is_Exception (on_row_error full_queue_broker (LInt 1)) st1 = (Ok tt, st2) /\
    (forall e s,
        send_row full_queue_broker (of_string "t") 3 (LInt 1) [] st1
        = (Raise e, s) ->
        failed (st_frame st2) = failed (st_frame st1) + 1) /\
    for_rows full_queue_broker (of_string "t") 3 [(LInt 2, [])] st2
    = (Ok tt, st3) /\
    for_rows full_queue_broker (of_string "t") 3
      ([(LInt 0, [])] ++ (LInt 1, []) :: [(LInt 2, [])]) st0 = (Ok tt, st3) /\
    failed (st_frame st2) <= failed (st_frame st3) /\
    st_trace st3 = st_trace st2 ++ evs /\
    payloads evs = row_payloads [(LInt 2, [])] /\
    List.length (payloads evs) = List.length [(LInt 2, @nil (pystr * value))].
Proof.
  cbv zeta.
  apply (row_errors_are_isolated full_queue_broker (of_string "t") 3
           [(LInt 0, [])] [(LInt 2, [])] (LInt 1) []).
  constructor.
Defined.

(** C7, the run that returns without a flush: when [Producer(config)]
    raises, [send_to_kafka] logs the error and returns [False] at line 77;
    there is no producer, nothing is produced and nothing is flushed. *)
Theorem no_flush_without_producer :
  let sr := send_to_kafka down_broker sample_df
              KAFKA_TOPIC KAFKA_BOOTSTRAP_SERVERS in
  returned sr = Ok false /\
  ~ In EvFlush (trace_of sr) /\
  payloads (trace_of sr) = [] /\
  run (world_with sample_df down_broker) default_args = 1.
Proof.
  cbv zeta.
  split; [reflexivity | ].
  split; [vm_compute; intuition discriminate | ].
  split; [reflexivity | vm_compute; reflexivity].
Qed.

(** C7 as amended: once the producer exists, the function returns only
    after the final flush.  Every row has been handed to [produce] before
    it, nothing is called on the producer after it, and it leaves the queue
    empty; this holds whatever rows failed on the way.  Without a producer
    the function returns [False] with nothing but three log lines. *)
Theorem final_flush_before_result (br : Broker) (df : DataFrame)
    (topic servers : pystr) :
  match connect br (producer_config servers) with
  | None =>
      exists st pre post b,
        send_to_kafka br df topic servers = Ran (Ok b) st /\
        st_trace st = pre ++ EvFlush :: post /\
        Forall (fun e => is_call e = false) post /\
        payloads pre = row_payloads (iterrows df) /\
        List.length (payloads pre) = List.length (rows df) /\
        queue (st_producer st) = []
  | Some err =>
      returned (send_to_kafka br df topic servers) = Ok false /\
      trace_of (send_to_kafka br df topic servers) =
        [EvLog INFO (LogConnecting servers); EvLog INFO (LogTopic topic);
         EvLog ERROR (LogProducerFailed (KafkaException err))]
  end.
Proof.
  pose proof (send_to_kafka_spec br df topic servers) as Hspec.
  destruct (connect br (producer_config servers)) as [err |].
  - rewrite Hspec; split; reflexivity.
  - destruct Hspec as (st & pre & post & Hrun & _ & _ & Hempty & Ht & Hpre & Hpost).
    exists st, pre, post, (failed (st_frame st) =? 0).
    assert (Hpay : payloads pre = row_payloads (iterrows df)).
    { rewrite <- payloads_filter, Hpre; apply payloads_planned. }
    repeat split; auto.
    rewrite Hpay, row_payloads_length; apply iterrows_length.
Qed.

(** C8 (the delivery callback is a no-op).  The callback returns [None]
    and leaves the counters as they are, for every report; it is the
    callback of every call of [produce]; and the counters and the result of
    a run are the same whatever the delivery reports say. *)
Theorem ack_callback_is_a_noop (br : Broker) (df : DataFrame)
    (topic servers : pystr) :
  (forall (err : option KafkaError) (msg : Message) (f : Frame),
      ack_callback err msg f = (Ok VNone, f)) /\
  (forall (m : Message) (cb : Callback) (q : bool),
      In (EvProduce m cb q) (trace_of (send_to_kafka br df topic servers)) ->
      cb = ack_callback) /\
  (forall r : nat -> option KafkaError,
      returned (send_to_kafka (with_reports br r) df topic servers) =
      returned (send_to_kafka br df topic servers) /\
      frame_of (send_to_kafka (with_reports br r) df topic servers) =
      frame_of (send_to_kafka br df topic servers)).
Proof.
  pose proof (send_to_kafka_spec br df topic servers) as Hspec.
  split; [reflexivity | split].
  - intros m cb q Hin.
    destruct (connect br (producer_config servers)) as [err |].
    + rewrite Hspec in Hin; simpl in Hin.
      intuition discriminate.
    + destruct Hspec as (st & pre & post & Hrun & _ & _ & _ & Ht & Hpre & Hpost).
      rewrite Hrun in Hin; cbn [trace_of] in Hin; rewrite Ht in Hin.
      apply in_app_or in Hin as [Hin | [Hin | Hin]].
      * apply (planned_callbacks (enqueue br) topic (iterrows df) 0 m cb q).
        rewrite <- Hpre; apply filter_In; split; [exact Hin | reflexivity].
      * discriminate.
      * rewrite Forall_forall in Hpost.
        specialize (Hpost _ Hin); discriminate.
  - intros r.
    pose proof (send_to_kafka_spec (with_reports br r) df topic servers) as Hspec'.
    cbn [connect enqueue with_reports] in Hspec'.
    destruct (connect br (producer_config servers)) as [err |].
    + rewrite Hspec, Hspec'; split; reflexivity.
    + destruct Hspec as (st & pre & post & Hrun & _ & Hf & _).
      destruct Hspec' as (st' & pre' & post' & Hrun' & _ & Hf' & _).
      rewrite Hrun, Hrun'; cbn [returned frame_of].
      rewrite Hf, Hf'; split; reflexivity.
Qed.

(** C9 (a path that does not exist).  [load_csv] raises
    [FileNotFoundError] before it reads anything, [main] logs the error,
    creates no producer, and the process ends with status 1. *)
Theorem missing_file_is_fatal (w : World) (args : Args) :
  files w (csv_file args) = None ->
  load_csv w (csv_file args) = (Raise (FileNotFoundError (csv_file args)), []) /\
  main w args =
    (Raise (SystemExit 1),
     [EvLog ERROR (LogMessage (FileNotFoundError (csv_file args)))]) /\
  run w args = 1.
Proof.
  intros Hmissing.
  unfold run, main, main_body, load_csv.
  rewrite Hmissing; repeat split.
Qed.

Lemma missing_file_witness :
  load_csv empty_world (csv_file default_args)
  = (Raise (FileNotFoundError (csv_file default_args)), []) /\
  main empty_world default_args =
    (Raise (SystemExit 1),
     [EvLog ERROR (LogMessage (FileNotFoundError (csv_file default_args)))]) /\
  run empty_world default_args = 1.
Proof.
  apply (missing_file_is_fatal empty_world default_args).
  reflexivity.
Defined.

(** C10 (the DataFrame is left as it was).  Through any part of the loop,
    and when [send_to_kafka] ends, the caller's DataFrame is the one that
    was passed in; the function ends without a state only when no producer
    could be created, before the DataFrame is looked at. *)
Theorem send_to_kafka_leaves_the_dataframe (br : Broker) (df : DataFrame)
    (topic servers : pystr) :
  match send_to_kafka br df topic servers with
  | Ran _ st => st_df st = df
  | NoProducer _ _ => connect br (producer_config servers) <> None
  end /\
  (forall (total_rows : Z) (its : list (label * Series)) (producer : Producer)
          (f : Frame) (t : list event),
      queue producer = [] ->
      st_df (snd (for_rows br topic total_rows its
                    {| st_df := df; st_producer := producer;
                       st_frame := f; st_trace := t |})) = df).
Proof.
  split.
  - pose proof (send_to_kafka_spec br df topic servers) as Hspec.
    destruct (connect br (producer_config servers)) as [err |].
    + rewrite Hspec; discriminate.
    + destruct Hspec as (st & pre & post & Hrun & Hd & _).
      rewrite Hrun; exact Hd.
  - intros total_rows its producer f t Hempty.
    set (st := {| st_df := df; st_producer := producer;
                  st_frame := f; st_trace := t |}).
    assert (Hq : quiet st) by (unfold quiet; simpl; rewrite Hempty; constructor).
    destruct (for_rows_spec br topic total_rows its st Hq)
      as (st' & evs & Hrun & Hd & _).
    rewrite Hrun; exact Hd.
Qed.

Lemma dataframe_left_witness :
  st_df (snd (for_rows full_queue_broker (of_string "t") 3 (iterrows sample_df)
                {| st_df := sample_df;
                   st_producer := {| queue := []; produced := 0;
                                     accepted := 0; polls := 0 |};
                   st_frame := {| successful := 0; failed := 0 |};
                   st_trace := [] |})) = sample_df.
Proof.
  generalize (send_to_kafka_leaves_the_dataframe full_queue_broker sample_df
                (of_string "t") []).
  intros [_ Hloop].
  exact (Hloop 3 (iterrows sample_df)
           {| queue := []; produced := 0; accepted := 0; polls := 0 |}
           {| successful := 0; failed := 0 |} [] eq_refl).
Defined.

(* ================================================================= *)
(** * Further properties of the script *)

Lemma tally_successful_nonneg (fts : list fate) (f : Frame) :
  0 <= successful f -> 0 <= successful (tally f fts).
Proof.
  revert f; induction fts as [| ft fts IH]; intros f Hf; simpl; [exact Hf | ].
  apply IH; simpl.
  destruct ft; lia.
Qed.

(** X1.  On a DataFrame whose index labels are integers, once the producer
    is created [send_to_kafka] returns with [successful + failed] equal to
    [len(df)], both counters non-negative, and it returns [True] exactly
    when every row was counted as successful. *)
Theorem counters_add_up_on_integer_index (br : Broker) (df : DataFrame)
    (topic servers : pystr) :
  integer_index df = true ->
  connect br (producer_config servers) = None ->
  exists st b,
    send_to_kafka br df topic servers = Ran (Ok b) st /\
    successful (st_frame st) + failed (st_frame st) = len df /\
    0 <= successful (st_frame st) /\
    0 <= failed (st_frame st) /\
    (b = true <-> successful (st_frame st) = len df).
Proof.
  intros Hint Hconn.
  pose proof (send_to_kafka_spec br df topic servers) as Hspec.
  rewrite Hconn in Hspec.
  destruct Hspec as (st & pre & post & Hrun & _ & Hf & _).
  assert (Hsum : successful (st_frame st) + failed (st_frame st) = len df).
  { rewrite Hf, tally_exact by (apply integer_labels_iterrows, Hint).
    rewrite iterrows_length; unfold len; simpl; lia. }
  assert (Hs : 0 <= successful (st_frame st)).
  { rewrite Hf; apply tally_successful_nonneg; simpl; lia. }
  assert (Hk : 0 <= failed (st_frame st)).
  { rewrite Hf; apply tally_failed_nonneg; simpl; lia. }
  exists st, (failed (st_frame st) =? 0).
  split; [exact Hrun | ].
  split; [exact Hsum | ].
  split; [exact Hs | ].
  split; [exact Hk | ].
  rewrite Z.eqb_eq; lia.
Qed.

Lemma counters_add_up_witness :
  exists st b,
    send_to_kafka full_queue_broker sample_df KAFKA_TOPIC KAFKA_BOOTSTRAP_SERVERS
    = Ran (Ok b) st /\
    successful (st_frame st) + failed (st_frame st) = len sample_df /\
    0 <= successful (st_frame st) /\
    0 <= failed (st_frame st) /\
    (b = true <-> successful (st_frame st) = len sample_df).
Proof.
  apply (counters_add_up_on_integer_index full_queue_broker sample_df
           KAFKA_TOPIC KAFKA_BOOTSTRAP_SERVERS); reflexivity.
Defined.

(** X2.  A path that exists but that [pd.read_csv] cannot parse: whatever
    the parser raised, [load_csv] raises [ValueError] after one log line and
    one read; [main] logs it, creates no producer, produces nothing, and the
    process ends with status 1. *)
Theorem unreadable_file_is_a_value_error (w : World) (args : Args)
    (c : content) :
  files w (csv_file args) = Some c ->
  unreadable c = true ->
  load_csv w (csv_file args) =
    (Raise ValueError,
     [EvLog INFO (LogLoading (csv_file args)); EvReadCsv (csv_file args)]) /\
  main w args =
    (Raise (SystemExit 1),
     [EvLog INFO (LogLoading (csv_file args)); EvReadCsv (csv_file args);
      EvLog ERROR (LogMessage ValueError)]) /\
  run w args = 1.
Proof.
  intros Hfile Hbad.
  unfold run, main, main_body, load_csv.
  rewrite Hfile.
  destruct c; try discriminate; repeat split.
Qed.

Lemma unreadable_file_witness :
  load_csv (world_holding NotCsv good_broker) (csv_file default_args) =
    (Raise ValueError,
     [EvLog INFO (LogLoading (csv_file default_args));
      EvReadCsv (csv_file default_args)]) /\
  main (world_holding NotCsv good_broker) default_args =
    (Raise (SystemExit 1),
     [EvLog INFO (LogLoading (csv_file default_args));
      EvReadCsv (csv_file default_args);
      EvLog ERROR (LogMessage ValueError)]) /\
  run (world_holding NotCsv good_broker) default_args = 1.
Proof.
  apply (unreadable_file_is_a_value_error (world_holding NotCsv good_broker)
           default_args NotCsv); reflexivity.
Defined.

(** X3.  A DataFrame without rows (a CSV file with a header only): once
    the producer is created nothing is produced or polled, the producer is
    flushed once, both counters are 0, [send_to_kafka] returns [True] and
    the exit status is 0. *)
Theorem empty_dataframe_succeeds (w : World) (args : Args) (df : DataFrame) :
  files w (csv_file args) = Some (Parsed df) ->
  rows df = [] ->
  connect (broker w) (producer_config (arg_bootstrap_servers args)) = None ->
  exists st,
    send_to_kafka (broker w) df (arg_topic args) (arg_bootstrap_servers args)
    = Ran (Ok true) st /\
    st_frame st = {| successful := 0; failed := 0 |} /\
    st_trace st =
      [EvLog INFO (LogConnecting (arg_bootstrap_servers args));
       EvLog INFO (LogTopic (arg_topic args));
       EvLog INFO (LogStarting 0);
       EvLog INFO LogFlushing; EvFlush;
       EvLog INFO (LogCompleted 0 0)] /\
    run w args = 0.
Proof.
  intros Hfile Hrows Hconn.
  assert (Hrun : exists st,
             send_to_kafka (broker w) df (arg_topic args)
               (arg_bootstrap_servers args) = Ran (Ok true) st /\
             st_frame st = {| successful := 0; failed := 0 |} /\
             st_trace st =
               [EvLog INFO (LogConnecting (arg_bootstrap_servers args));
                EvLog INFO (LogTopic (arg_topic args));
                EvLog INFO (LogStarting 0);
                EvLog INFO LogFlushing; EvFlush;
                EvLog INFO (LogCompleted 0 0)]).
  { unfold send_to_kafka, Kafka.new; rewrite Hconn.
    unfold send_rows, bind, get_df, iterrows, len; cbn [st_df].
    rewrite Hrows.
    exists {| st_df := df;
              st_producer := {| queue := []; produced := 0;
                                accepted := 0; polls := 0 |};
              st_frame := {| successful := 0; failed := 0 |};
              st_trace :=
                [EvLog INFO (LogConnecting (arg_bootstrap_servers args));
                 EvLog INFO (LogTopic (arg_topic args));
                 EvLog INFO (LogStarting 0);
                 EvLog INFO LogFlushing; EvFlush;
                 EvLog INFO (LogCompleted 0 0)] |}.
    split; [vm_compute; reflexivity | split; reflexivity]. }
  destruct Hrun as (st & Hrun & Hf & Ht).
  exists st; repeat split; auto.
  rewrite run_spec, Hfile, Hrun; reflexivity.
Qed.

Lemma empty_dataframe_witness :
  exists st,
    send_to_kafka good_broker (range_df 0) KAFKA_TOPIC KAFKA_BOOTSTRAP_SERVERS
    = Ran (Ok true) st /\
    st_frame st = {| successful := 0; failed := 0 |} /\
    st_trace st =
      [EvLog INFO (LogConnecting KAFKA_BOOTSTRAP_SERVERS);
       EvLog INFO (LogTopic KAFKA_TOPIC);
       EvLog INFO (LogStarting 0);
       EvLog INFO LogFlushing; EvFlush;
       EvLog INFO (LogCompleted 0 0)] /\
    run (world_with (range_df 0) good_broker) default_args = 0.
Proof.
  apply (empty_dataframe_succeeds (world_with (range_df 0) good_broker)
           default_args (range_df 0)); reflexivity.
Defined.

(* ----------------------------------------------------------------- *)
(** ** What reaches the producer, and what comes back *)





Lemma count_app (p : event -> bool) (t1 t2 : list event) :
  count p (t1 ++ t2) = (count p t1 + count p t2)%nat.
Proof. unfold count; rewrite filter_app, length_app; reflexivity. Qed.

Lemma count_none (p : event -> bool) (t : list event) :
  Forall (fun e => p e = false) t -> count p t = 0%nat.
Proof.
  unfold count; induction 1 as [| e t He Ht IH]; simpl; [reflexivity | ].
  rewrite He; exact IH.
Qed.





(* ----------------------------------------------------------------- *)
(** ** Invariants of the monadic code *)

Lemma preserves_bind {A B : Type} (I : state -> Prop) (c : M A) (k : A -> M B) :
  preserves I c -> (forall a, preserves I (k a)) -> preserves I (bind c k).
Proof.
  intros Hc Hk st Hst.
  specialize (Hc st Hst).
  unfold bind.
  destruct (c st) as [[a | e] st1]; simpl in *; [apply Hk, Hc | exact Hc].
Qed.

Lemma preserves_try_except {A : Type} (I : state -> Prop) (body : M A)
    (catches : exn -> bool) (handler : exn -> M A) :
  preserves I body -> (forall e, preserves I (handler e)) ->
  preserves I (try_except body catches handler).
Proof.
  intros Hb Hh st Hst.
  specialize (Hb st Hst).
  unfold try_except.
  destruct (body st) as [[a | e] st1]; simpl in *; [exact Hb | ].
  destruct (catches e); [apply Hh, Hb | exact Hb].
Qed.

Lemma preserves_ret {A : Type} (I : state -> Prop) (a : A) :
  preserves I (ret a).
Proof. intros st Hst; exact Hst. Qed.

Lemma preserves_lift {A : Type} (I : state -> Prop) (r : result A) :
  preserves I (lift r).
Proof. intros st Hst; exact Hst. Qed.



Lemma poll_run (br : Broker) (timeout : Z) (st : state) :
  quiet st ->
  snd (poll br timeout st) =
  let p := st_producer st in
  let k := Nat.min (ready br (polls p)) (List.length (queue p)) in
  {| st_df := st_df st;
     st_producer := {| queue := skipn k (queue p); produced := produced p;
                       accepted := accepted p; polls := S (polls p) |};
     st_frame := st_frame st;
     st_trace := (st_trace st ++ [EvPoll]) ++ reports br (firstn k (queue p)) |}.
Proof.
  intros Hq; cbv zeta.
  set (k := Nat.min (ready br (polls (st_producer st)))
                    (List.length (queue (st_producer st)))).
  assert (Hserved : Forall (fun e : entry => snd e = ack_callback)
                      (firstn k (queue (st_producer st)))).
  { eapply proj1, Forall_app. rewrite firstn_skipn. exact Hq. }
  unfold poll, bind, get_producer, emit; simpl.
  fold k.
  rewrite deliver_quiet by exact Hserved.
  reflexivity.
Qed.

Lemma flush_run (br : Broker) (st : state) :
  quiet st ->
  snd (flush br st) =
  {| st_df := st_df st;
     st_producer := {| queue := []; produced := produced (st_producer st);
                       accepted := accepted (st_producer st);
                       polls := polls (st_producer st) |};
     st_frame := st_frame st;
     st_trace := (st_trace st ++ [EvFlush]) ++
                 reports br (queue (st_producer st)) |}.
Proof.
  intros Hq.
  unfold flush, bind, get_producer, emit; simpl.
  rewrite deliver_quiet by exact Hq.
  reflexivity.
Qed.

Section Balance.

Variable br : Broker.








Variable topic : pystr.
Variable total_rows : Z.





End Balance.



(* ----------------------------------------------------------------- *)
(** ** The schedule of polls and flushes *)

Lemma every_div (d k : Z) :
  0 < d -> (k + 1) / d = k / d + Z.of_nat (every d (k + 1)).
Proof.
  intros Hd; unfold every.
  destruct ((k + 1) mod d =? 0) eqn:E;
    [apply Z.eqb_eq in E | apply Z.eqb_neq in E];
    Z.div_mod_to_equations; nia.
Qed.

Lemma mod_succ (d k : Z) :
  0 < d ->
  (k + 1) mod d = if (k + 1) mod d =? 0 then 0 else k mod d + 1.
Proof.
  intros Hd.
  destruct ((k + 1) mod d =? 0) eqn:E;
    [apply Z.eqb_eq in E; exact E | apply Z.eqb_neq in E].
  pose proof (Z.mod_pos_bound k d Hd) as Hr.
  pose proof (Z.div_mod k d ltac:(lia)) as Hk.
  destruct (Z.eq_dec (k mod d + 1) d) as [Hfull | Hroom].
  - exfalso; apply E; symmetry.
    apply (Z.mod_unique (k + 1) d (k / d + 1) 0); [left; lia | ].
    rewrite Z.mul_add_distr_l, Z.mul_1_r; lia.
  - symmetry.
    apply (Z.mod_unique (k + 1) d (k / d) (k mod d + 1)); [left; lia | lia].
Qed.

Lemma not_poll_among (t : list event) :
  Forall (fun e => is_call e = false) t -> count is_poll t = 0%nat.
Proof.
  intros H; apply count_none; revert H; apply Forall_impl.
  intros e He; destruct e; simpl in *; congruence.
Qed.

Lemma not_flush_among (t : list event) :
  Forall (fun e => is_call e = false) t -> count is_flush t = 0%nat.
Proof.
  intros H; apply count_none; revert H; apply Forall_impl.
  intros e He; destruct e; simpl in *; congruence.
Qed.

Lemma count_cons (p : event -> bool) (e : event) (t : list event) :
  count p (e :: t) = ((if p e then 1 else 0) + count p t)%nat.
Proof. unfold count; simpl; destruct (p e); reflexivity. Qed.

Section Schedule.

Variable br : Broker.
Variable topic : pystr.
Variable total_rows : Z.

(** [poll(0)] takes reports off the queue, it never adds to it. *)
Lemma poll_profile (timeout : Z) (st : state) :
  quiet st ->
  exists n st' rs,
    poll br timeout st = (Ok n, st') /\
    idles st st' (EvPoll :: rs) /\
    Forall (fun e => is_call e = false) rs /\
    (List.length (queue (st_producer st')) <=
     List.length (queue (st_producer st)))%nat.
Proof.
  intros Hq.
  destruct (poll_quiet br timeout st Hq) as (n & st' & rs & Hrun & Hid & Hrs).
  exists n, st', rs; repeat split; try assumption; try apply Hid.
  pose proof (poll_run br timeout st Hq) as Hsnd.
  rewrite Hrun in Hsnd; cbv zeta in Hsnd; simpl in Hsnd.
  rewrite Hsnd; simpl.
  rewrite length_skipn; lia.
Qed.

(** Lines 98 to 105 on the label [i]: a poll when [i + 1] is a multiple of
    100, a flush when it is a multiple of 10000. *)
Lemma housekeeping_profile (i : Z) (st : state) :
  quiet st ->
  exists st' evs,
    housekeeping br total_rows (LInt i) st = (Ok tt, st') /\
    idles st st' evs /\
    count is_poll evs = every 100 (i + 1) /\
    count is_flush evs = every 10000 (i + 1) /\
    (List.length (queue (st_producer st')) <=
     if ((i + 1) mod 10000 =? 0)%Z then 0
     else List.length (queue (st_producer st)))%nat.
Proof.
  intros Hq.
  unfold housekeeping, every.
  rewrite (bind_run _ _ st st (Ok (i + 1))) by reflexivity.
  assert (Hpoll : exists st1 evs1,
             (if (i + 1) mod 100 =? 0 then poll br 0 ;; ret tt else ret tt) st
             = (Ok tt, st1) /\ idles st st1 evs1 /\
             count is_poll evs1 = (if ((i + 1) mod 100 =? 0)%Z then 1 else 0)%nat /\
             count is_flush evs1 = 0%nat /\
             (List.length (queue (st_producer st1)) <=
              List.length (queue (st_producer st)))%nat).
  { destruct ((i + 1) mod 100 =? 0).
    - destruct (poll_profile 0 st Hq) as (n & st1 & rs & Hrun & Hid & Hrs & Hlen).
      exists st1, (EvPoll :: rs).
      split; [rewrite (bind_run _ _ _ _ _ Hrun); reflexivity | ].
      split; [exact Hid | ].
      rewrite !count_cons, (not_poll_among rs Hrs), (not_flush_among rs Hrs).
      repeat split; auto.
    - exists st, []; repeat split; auto.
      apply idles_refl, Hq. }
  destruct Hpoll as (st1 & evs1 & Hrun1 & Hid1 & Hp1 & Hfl1 & Hlen1).
  rewrite (bind_run _ _ _ _ _ Hrun1).
  rewrite (bind_run _ _ st1 st1 (Ok (i + 1))) by reflexivity.
  destruct ((i + 1) mod 10000 =? 0).
  - destruct (flush_quiet br st1 (idles_quiet _ _ _ Hid1))
      as (n & st2 & rs & Hrun2 & Hid2 & Hrs & Hempty).
    rewrite (bind_run _ _ _ _ _ Hrun2).
    rewrite (bind_run _ _ st2 st2 (Ok (i + 1))) by reflexivity.
    destruct (logger_idles INFO (LogSent (i + 1) total_rows) st2
                (idles_quiet _ _ _ Hid2)) as (st3 & Hrun3 & Hid3).
    exists st3, (evs1 ++ (EvFlush :: rs) ++ [EvLog INFO (LogSent (i + 1) total_rows)]).
    split; [exact Hrun3 | ].
    split.
    { eapply idles_trans; [exact Hid1 | ].
      eapply idles_trans; [exact Hid2 | exact Hid3]. }
    rewrite !count_app, !count_cons, Hp1, Hfl1.
    rewrite (not_poll_among rs Hrs), (not_flush_among rs Hrs).
    unfold count; simpl.
    repeat split; try lia.
    assert (Hsame : st_producer st3 = st_producer st2).
    { unfold logger, emit in Hrun3; inversion Hrun3; reflexivity. }
    rewrite Hsame, Hempty; simpl; lia.
  - exists st1, evs1.
    repeat split; auto; try apply Hid1.
Qed.

(** One turn of the loop when [produce] queues the message. *)
Lemma iteration_profile (i : Z) (row : Series) (st : state) :
  quiet st ->
  (forall m, enqueue br (produced (st_producer st)) m = None) ->
  exists st' evs,
    try_except (send_row br topic total_rows (LInt i) row) is_Exception
      (on_row_error br (LInt i)) st = (Ok tt, st') /\
    quiet st' /\
    st_trace st' = st_trace st ++ evs /\
    count is_poll evs = every 100 (i + 1) /\
    count is_flush evs = every 10000 (i + 1) /\
    (List.length (queue (st_producer st')) <=
     if ((i + 1) mod 10000 =? 0)%Z then 0
     else S (List.length (queue (st_producer st))))%nat.
Proof.
  intros Hq Haccept.
  destruct (encode_row_total row) as [payload Henc].
  unfold try_except, send_row.
  rewrite (bind_run _ _ st st (encode_row row)) by reflexivity.
  rewrite Henc.
  set (m := {| msg_topic := topic; msg_value := payload |}).
  set (st1 := {| st_df := st_df st;
                 st_producer :=
                   {| queue := queue (st_producer st) ++
                               [(accepted (st_producer st), m, ack_callback)];
                      produced := S (produced (st_producer st));
                      accepted := S (accepted (st_producer st));
                      polls := polls (st_producer st) |};
                 st_frame := st_frame st;
                 st_trace := st_trace st ++ [EvProduce m ack_callback true] |}).
  assert (Hrun1 : produce br topic payload ack_callback st = (Ok tt, st1)).
  { unfold produce, bind, get_producer; simpl.
    fold m; rewrite Haccept; reflexivity. }
  rewrite (bind_run _ _ _ _ _ Hrun1).
  set (st2 := {| st_df := st_df st1; st_producer := st_producer st1;
                 st_frame := {| successful := successful (st_frame st1) + 1;
                                failed := failed (st_frame st1) |};
                 st_trace := st_trace st1 |}).
  assert (Hrun2 : incr_successful st1 = (Ok tt, st2)) by reflexivity.
  rewrite (bind_run _ _ _ _ _ Hrun2).
  assert (Hq2 : quiet st2).
  { unfold quiet; simpl.
    apply Forall_app; split; [exact Hq | ].
    constructor; [reflexivity | constructor]. }
  destruct (housekeeping_profile i st2 Hq2)
    as (st3 & evs & Hrun3 & (_ & _ & _ & Hq3 & Ht3) & Hp & Hfl & Hlen).
  rewrite Hrun3.
  exists st3, (EvProduce m ack_callback true :: evs).
  split; [reflexivity | ].
  split; [exact Hq3 | ].
  split; [rewrite Ht3; simpl; rewrite <- app_assoc; reflexivity | ].
  rewrite !count_cons, Hp, Hfl; simpl.
  repeat split.
  simpl in Hlen; rewrite length_app in Hlen; simpl in Hlen.
  destruct ((i + 1) mod 10000 =? 0); lia.
Qed.

(** The loop over rows labelled [k], [k + 1], ... with a producer that
    queues every message. *)
Lemma for_rows_schedule (its : list (label * Series)) (k : Z) (st : state) :
  (forall n m, enqueue br n m = None) ->
  consecutive k its = true ->
  quiet st ->
  exists st' evs,
    for_rows br topic total_rows its st = (Ok tt, st') /\
    quiet st' /\
    st_trace st' = st_trace st ++ evs /\
    Z.of_nat (count is_poll evs) =
      (k + Z.of_nat (List.length its)) / 100 - k / 100 /\
    Z.of_nat (count is_flush evs) =
      (k + Z.of_nat (List.length its)) / 10000 - k / 10000 /\
    (Z.of_nat (List.length (queue (st_producer st))) <= k mod 10000 ->
     Z.of_nat (List.length (queue (st_producer st'))) <=
     (k + Z.of_nat (List.length its)) mod 10000).
Proof.
  intros Haccept.
  revert k st; induction its as [| [idx row] its IH]; intros k st Hcons Hq.
  - exists st, []; simpl.
    rewrite app_nil_r, Z.add_0_r, !Z.sub_diag.
    repeat split; auto.
  - simpl in Hcons.
    destruct idx as [i | s]; [ | discriminate].
    apply andb_true_iff in Hcons as [Hi Hrest].
    apply Z.eqb_eq in Hi; subst i.
    destruct (iteration_profile k row st Hq (Haccept _))
      as (st1 & evs1 & Hrun1 & Hq1 & Ht1 & Hp1 & Hfl1 & Hlen1).
    destruct (IH (k + 1) st1 Hrest Hq1)
      as (st2 & evs2 & Hrun2 & Hq2 & Ht2 & Hp2 & Hfl2 & Hlen2).
    exists st2, (evs1 ++ evs2).
    split; [cbn [for_rows]; rewrite (bind_run _ _ _ _ _ Hrun1); exact Hrun2 | ].
    split; [exact Hq2 | ].
    split; [rewrite Ht2, Ht1, app_assoc; reflexivity | ].
    rewrite !count_app, !Nat2Z.inj_add, Hp1, Hfl1, Hp2, Hfl2.
    cbn [List.length]; rewrite Nat2Z.inj_succ.
    replace (k + Z.succ (Z.of_nat (List.length its)))
      with (k + 1 + Z.of_nat (List.length its)) by lia.
    rewrite (every_div 100 k), (every_div 10000 k) by lia.
    split; [lia | split; [lia | ]].
    intros Hbound; apply Hlen2.
    rewrite (mod_succ 10000 k) by lia.
    destruct ((k + 1) mod 10000 =? 0); lia.
Qed.

End Schedule.

Lemma consecutive_integer (its : list (label * Series)) (k : Z) :
  consecutive k its = true -> integer_labels its = true.
Proof.
  revert k; induction its as [| [[i | s] row] its IH]; intros k H; simpl in *.
  - reflexivity.
  - apply andb_true_iff in H as [_ H]; exact (IH _ H).
  - discriminate.
Qed.

Lemma consecutive_firstn (its : list (label * Series)) (k : Z) (j : nat) :
  consecutive k its = true -> consecutive k (firstn j its) = true.
Proof.
  revert k j; induction its as [| [[i | s] row] its IH]; intros k j H.
  - destruct j; reflexivity.
  - destruct j; [reflexivity | ]; simpl in *.
    apply andb_true_iff in H as [Hi H].
    rewrite Hi, (IH _ _ H); reflexivity.
  - discriminate.
Qed.

(** Lines 79 to 122 on a [RangeIndex] with a producer that queues every
    message: how many polls and flushes the run adds to the trace. *)
Lemma send_rows_schedule (br : Broker) (topic : pystr) (st : state) :
  (forall n m, enqueue br n m = None) ->
  range_index (st_df st) = true ->
  quiet st ->
  exists b st',
    send_rows br topic st = (Ok b, st') /\
    Z.of_nat (count is_poll (st_trace st')) =
      Z.of_nat (count is_poll (st_trace st)) + len (st_df st) / 100 /\
    Z.of_nat (count is_flush (st_trace st')) =
      Z.of_nat (count is_flush (st_trace st)) + len (st_df st) / 10000 + 1.
Proof.
  intros Haccept Hrange Hq.
  unfold send_rows.
  rewrite (bind_run _ _ st st (Ok (st_df st))) by reflexivity.
  set (st1 := {| st_df := st_df st; st_producer := st_producer st;
                 st_frame := {| successful := 0; failed := 0 |};
                 st_trace := st_trace st ++
                             [EvLog INFO (LogStarting (len (st_df st)))] |}).
  assert (Hq1 : quiet st1) by exact Hq.
  unfold bind at 1 2; simpl; fold st1.
  destruct (for_rows_schedule br topic (len (st_df st)) (iterrows (st_df st))
              0 st1 Haccept Hrange Hq1)
    as (st2 & evs2 & Hrun2 & Hq2 & Ht2 & Hp2 & Hfl2 & _).
  rewrite (bind_run _ _ _ _ _ Hrun2).
  destruct (logger_idles INFO LogFlushing st2 Hq2)
    as (st3 & Hrun3 & _ & _ & _ & Hq3 & Ht3).
  rewrite (bind_run _ _ _ _ _ Hrun3).
  destruct (flush_quiet br st3 Hq3)
    as (n & st4 & rs & Hrun4 & (_ & _ & _ & _ & Ht4) & Hrs & _).
  rewrite (bind_run _ _ _ _ _ Hrun4).
  rewrite (bind_run _ _ st4 st4 (Ok (st_frame st4))) by reflexivity.
  assert (Hcounts :
            Z.of_nat (count is_poll (st_trace st4)) =
              Z.of_nat (count is_poll (st_trace st)) + len (st_df st) / 100 /\
            Z.of_nat (count is_flush (st_trace st4)) =
              Z.of_nat (count is_flush (st_trace st)) +
              len (st_df st) / 10000 + 1).
  { rewrite Ht4, Ht3, Ht2; subst st1; cbn [st_trace].
    rewrite !count_app, !count_cons.
    rewrite (not_poll_among rs Hrs), (not_flush_among rs Hrs).
    cbn [is_poll is_flush]; change (count is_poll []) with 0%nat;
      change (count is_flush []) with 0%nat.
    rewrite iterrows_length in Hp2, Hfl2.
    unfold len; simpl in Hp2, Hfl2.
    change (0 / 100) with 0 in Hp2; change (0 / 10000) with 0 in Hfl2.
    rewrite !Nat2Z.inj_add, Hp2, Hfl2; simpl; split; lia. }
  unfold bind at 1; simpl.
  destruct (failed (st_frame st4) >? 0).
  - do 2 eexists; split; [reflexivity | ].
    cbn [st_trace]; rewrite !count_app.
    change (count is_poll [_]) with 0%nat; change (count is_flush [_]) with 0%nat.
    rewrite !Nat.add_0_r; exact Hcounts.
  - do 2 eexists; split; [reflexivity | ].
    cbn [st_trace]; rewrite !count_app.
    change (count is_poll [_]) with 0%nat; change (count is_flush [_]) with 0%nat.
    rewrite !Nat.add_0_r; exact Hcounts.
Qed.

(** X6.  On a DataFrame with a [RangeIndex] and a producer that queues
    every message, [producer.poll(0)] is called once per 100 rows and
    [producer.flush()] once per 10000 rows and once more at the end:
    [len(df) // 100] polls and [len(df) // 10000 + 1] flushes in all, and
    the function returns [True]. *)
Theorem poll_and_flush_schedule (br : Broker) (df : DataFrame)
    (topic servers : pystr) :
  (forall n m, enqueue br n m = None) ->
  range_index df = true ->
  connect br (producer_config servers) = None ->
  exists st,
    send_to_kafka br df topic servers = Ran (Ok true) st /\
    Z.of_nat (count is_poll (st_trace st)) = len df / 100 /\
    Z.of_nat (count is_flush (st_trace st)) = len df / 10000 + 1.
Proof.
  intros Haccept Hrange Hconn.
  pose proof (send_to_kafka_spec br df topic servers) as Hspec.
  rewrite Hconn in Hspec.
  destruct Hspec as (st & pre & post & Hrun & _ & Hf & _).
  assert (Hok : (failed (st_frame st) =? 0) = true).
  { rewrite Hf, tally_all_sent;
      [reflexivity | exact (consecutive_integer _ _ Hrange) | exact Haccept]. }
  rewrite Hok in Hrun.
  exists st; split; [exact Hrun | ].
  revert Hrun; unfold send_to_kafka, Kafka.new; rewrite Hconn.
  set (st0 := {| st_df := df;
                 st_producer := {| queue := []; produced := 0;
                                   accepted := 0; polls := 0 |};
                 st_frame := {| successful := 0; failed := 0 |};
                 st_trace := [EvLog INFO (LogConnecting servers);
                              EvLog INFO (LogTopic topic)] |}).
  assert (Hq0 : quiet st0) by constructor.
  destruct (send_rows_schedule br topic st0 Haccept Hrange Hq0)
    as (b & st' & Hrun' & Hp & Hfl).
  rewrite Hrun'; intros Heq; inversion Heq; subst b st'.
  exact (conj Hp Hfl).
Qed.

Lemma poll_and_flush_witness :
  exists st,
    send_to_kafka good_broker (range_df 250) KAFKA_TOPIC KAFKA_BOOTSTRAP_SERVERS
    = Ran (Ok true) st /\
    Z.of_nat (count is_poll (st_trace st)) = len (range_df 250) / 100 /\
    Z.of_nat (count is_flush (st_trace st)) = len (range_df 250) / 10000 + 1.
Proof.
  apply (poll_and_flush_schedule good_broker (range_df 250)
           KAFKA_TOPIC KAFKA_BOOTSTRAP_SERVERS).
  - reflexivity.
  - vm_compute; reflexivity.
  - reflexivity.
Defined.

(** X7.  With a producer that queues every message, after any number [j]
    of rows of a [RangeIndex] the queue holds at most [j mod 10000]
    messages waiting for their delivery report: the flush every 10000 rows
    keeps it below 10000. *)
Theorem queue_stays_below_the_flush_interval (br : Broker) (topic : pystr)
    (total_rows : Z) (its : list (label * Series)) (j : nat) (st : state) :
  (forall n m, enqueue br n m = None) ->
  consecutive 0 its = true ->
  queue (st_producer st) = [] ->
  exists st',
    for_rows br topic total_rows (firstn j its) st = (Ok tt, st') /\
    Z.of_nat (List.length (queue (st_producer st'))) <=
      Z.of_nat (List.length (firstn j its)) mod 10000 /\
    Z.of_nat (List.length (queue (st_producer st'))) < 10000.
Proof.
  intros Haccept Hcons Hempty.
  assert (Hq : quiet st) by (unfold quiet; rewrite Hempty; constructor).
  destruct (for_rows_schedule br topic total_rows (firstn j its) 0 st Haccept
              (consecutive_firstn its 0 j Hcons) Hq)
    as (st' & evs & Hrun & _ & _ & _ & _ & Hlen).
  exists st'; split; [exact Hrun | ].
  rewrite Hempty in Hlen; simpl in Hlen.
  specialize (Hlen ltac:(reflexivity)).
  split; [exact Hlen | ].
  pose proof (Z.mod_pos_bound (Z.of_nat (List.length (firstn j its))) 10000
                ltac:(lia)).
  lia.
Qed.

Lemma queue_bound_witness :
  exists st',
    for_rows good_broker KAFKA_TOPIC 3 (firstn 2 (iterrows sample_df))
      {| st_df := sample_df;
         st_producer := {| queue := []; produced := 0;
                           accepted := 0; polls := 0 |};
         st_frame := {| successful := 0; failed := 0 |};
         st_trace := [] |} = (Ok tt, st') /\
    Z.of_nat (List.length (queue (st_producer st'))) <=
      Z.of_nat (List.length (firstn 2 (iterrows sample_df))) mod 10000 /\
    Z.of_nat (List.length (queue (st_producer st'))) < 10000.
Proof.
  apply (queue_stays_below_the_flush_interval good_broker KAFKA_TOPIC 3
           (iterrows sample_df) 2).
  - reflexivity.
  - vm_compute; reflexivity.
  - reflexivity.
Defined.

(* ----------------------------------------------------------------- *)
(** ** The payload is printable ASCII *)

Lemma printable_app (s t : pystr) :
  printable s -> printable t -> printable (s ++ t).
Proof. unfold printable; intros; apply Forall_app; auto. Qed.

Lemma printable_cons (c : Z) (s : pystr) :
  32 <= c <= 126 -> printable s -> printable (c :: s).
Proof. unfold printable; intros; constructor; auto. Qed.

Lemma printable_nil : printable [].
Proof. constructor. Qed.

Lemma hex_digit_printable (n : Z) :
  0 <= n < 16 -> 32 <= Json.hex_digit n <= 126.
Proof.
  intros H; unfold Json.hex_digit.
  destruct (n <? 10); lia.
Qed.

Lemma printable_u_escape (n : Z) : printable (Json.u_escape n).
Proof.
  unfold Json.u_escape.
  repeat (apply printable_cons;
          [ first [ lia | apply hex_digit_printable, nibble_range ] | ]).
  apply printable_nil.
Qed.

Lemma printable_escape_char (c : Z) : printable (Json.escape_char c).
Proof.
  unfold Json.escape_char.
  repeat match goal with
         | |- context [if ?b then _ else _] => destruct b eqn:?
         end;
    try (apply printable_app); try apply printable_u_escape;
    repeat (apply printable_cons; [lia | ]); apply printable_nil.
Qed.

Lemma printable_basestring (s : pystr) :
  printable (Json.encode_basestring_ascii s).
Proof.
  unfold Json.encode_basestring_ascii.
  apply printable_cons; [lia | ].
  apply printable_app.
  - induction s as [| c s IH]; simpl; [apply printable_nil | ].
    apply printable_app; [apply printable_escape_char | exact IH].
  - apply printable_cons; [lia | apply printable_nil].
Qed.

Lemma printable_int_repr (z : Z) : printable (Json.int_repr z).
Proof.
  assert (Hu : forall u, printable (Json.uint_digits u)).
  { induction u; simpl; try (apply printable_cons; [lia | assumption]).
    apply printable_nil. }
  unfold Json.int_repr.
  destruct (Z.to_int z); [apply Hu | apply printable_cons; [lia | apply Hu]].
Qed.

Lemma printable_encode_value (v : value) :
  plain_float v = true -> printable (Json.encode_value v).
Proof.
  destruct v as [| [|] | z | [| [|] | r] | s | cls text]; simpl; intros Hv.
  - literal "null"%string.
  - literal "true"%string.
  - literal "false"%string.
  - apply printable_int_repr.
  - literal "NaN"%string.
  - literal "-Infinity"%string.
  - literal "Infinity"%string.
  - unfold printable, of_string.
    apply Forall_map, Forall_forall; intros a Ha.
    rewrite forallb_forall in Hv; specialize (Hv a Ha).
    unfold printable_ascii in Hv; lia.
  - apply printable_basestring.
  - apply printable_basestring.
Qed.

Lemma printable_dumps (d : dict) :
  forallb (fun kv => plain_float (snd kv)) d = true ->
  printable (Json.dumps d).
Proof.
  intros Hd.
  unfold Json.dumps.
  apply printable_app; [literal "{"%string | ].
  apply printable_app; [ | literal "}"%string].
  induction d as [| kv d IH]; [apply printable_nil | ].
  simpl in Hd; apply andb_true_iff in Hd as [Hkv Hd].
  assert (Hitem : printable (Json.encode_item kv)).
  { unfold Json.encode_item.
    apply printable_app; [apply printable_basestring | ].
    apply printable_app;
      [literal ": "%string | apply printable_encode_value, Hkv]. }
  destruct d as [| kv' d'].
  - exact Hitem.
  - change (printable (Json.encode_item kv ++ of_string ", " ++
                       Json.join_items (map Json.encode_item (kv' :: d')))).
    apply printable_app; [exact Hitem | ].
    apply printable_app; [literal ", "%string | exact (IH Hd)].
Qed.

(** [to_dict] only keeps values of the row. *)
Lemma plain_to_dict (row : Series) :
  plain_floats row = true ->
  forallb (fun kv => plain_float (snd kv)) (to_dict row) = true.
Proof.
  assert (Hset : forall d k v,
             forallb (fun kv => plain_float (snd kv)) d = true ->
             plain_float v = true ->
             forallb (fun kv => plain_float (snd kv)) (dict_set d k v) = true).
  { induction d as [| [k' v'] d IH]; intros k v Hd Hv; simpl.
    - rewrite Hv; reflexivity.
    - simpl in Hd; apply andb_true_iff in Hd as [Hv' Hd].
      destruct (pystr_eqb k' k); simpl.
      + rewrite Hv, Hd; reflexivity.
      + rewrite Hv', (IH k v Hd Hv); reflexivity. }
  unfold plain_floats, to_dict.
  assert (Hacc : forall acc,
             forallb (fun kv => plain_float (snd kv)) acc = true ->
             forallb (fun kv => plain_float (snd kv)) row = true ->
             forallb (fun kv => plain_float (snd kv))
               (fold_left (fun d kv => dict_set d (fst kv) (snd kv)) row acc)
             = true).
  { induction row as [| kv row IH]; intros acc Hacc Hrow; simpl.
    - exact Hacc.
    - simpl in Hrow; apply andb_true_iff in Hrow as [Hkv Hrow].
      apply IH; [apply Hset; assumption | exact Hrow]. }
  intros Hrow; apply Hacc; [reflexivity | exact Hrow].
Qed.

Lemma encode_utf8_printable (s : pystr) :
  printable s -> encode_utf8 s = Ok (map byte_of_Z s).
Proof.
  induction 1 as [| c s Hc Hs IH]; simpl; [reflexivity | ].
  unfold utf8_char.
  destruct (c <? 0) eqn:E0; [apply Z.ltb_lt in E0; lia | ].
  destruct (c <? 128) eqn:E1; [ | apply Z.ltb_ge in E1; lia].
  rewrite IH; reflexivity.
Qed.

Lemma byte_of_Z_value (c : Z) :
  0 <= c < 256 -> Z.of_N (Byte.to_N (byte_of_Z c)) = c.
Proof.
  intros Hc; unfold byte_of_Z.
  destruct (Byte.of_N (Z.to_N c)) as [b |] eqn:E.
  - apply Byte.to_of_N in E; rewrite E; lia.
  - apply Byte.of_N_None_iff in E; lia.
Qed.

(** X8.  The payload of a row is printable ASCII, one byte for each
    character of the JSON text: [json.dumps] escapes every quote, backslash,
    control character and non-ASCII character of the column names and of
    the values, so encoding to UTF-8 cannot fail and changes nothing. *)
Theorem payload_is_printable_ascii (row : Series) :
  plain_floats row = true ->
  exists b,
    encode_row row = Ok b /\
    map (fun x => Z.of_N (Byte.to_N x)) b = Json.dumps (to_dict row) /\
    Forall (fun x => 32 <= Z.of_N (Byte.to_N x) <= 126) b.
Proof.
  intros Hrow.
  pose proof (printable_dumps (to_dict row) (plain_to_dict row Hrow)) as Hp.
  exists (map byte_of_Z (Json.dumps (to_dict row))).
  split; [exact (encode_utf8_printable _ Hp) | ].
  assert (Hback : map (fun x => Z.of_N (Byte.to_N x))
                    (map byte_of_Z (Json.dumps (to_dict row)))
                  = Json.dumps (to_dict row)).
  { rewrite map_map.
    induction Hp as [| c s Hc Hs IH]; simpl; [reflexivity | ].
    rewrite byte_of_Z_value by lia; rewrite IH; reflexivity. }
  split; [exact Hback | ].
  apply Forall_map with (f := fun x => Z.of_N (Byte.to_N x))
                        (P := fun c => 32 <= c <= 126).
  rewrite Hback; exact Hp.
Qed.

Lemma payload_witness :
  exists b,
    encode_row [(of_string "name", VStr [233; 34; 10; 128512]);
                (of_string "x", VFloat (FFinite "1.5"))] = Ok b /\
    map (fun x => Z.of_N (Byte.to_N x)) b =
      Json.dumps (to_dict [(of_string "name", VStr [233; 34; 10; 128512]);
                           (of_string "x", VFloat (FFinite "1.5"))]) /\
    Forall (fun x => 32 <= Z.of_N (Byte.to_N x) <= 126) b.
Proof.
  apply (payload_is_printable_ascii
           [(of_string "name", VStr [233; 34; 10; 128512]);
            (of_string "x", VFloat (FFinite "1.5"))]).
  vm_compute; reflexivity.
Defined.

(** X9.  [main] always ends the process through [sys.exit]: it never
    returns and lets no other exception out.  The last thing it does before
    is to log: the success line at level INFO before status 0, a line at
    level ERROR before status 1. *)
Theorem main_always_exits (w : World) (args : Args) :
  exists t msg,
    main w args =
      (Raise (SystemExit (run w args)),
       t ++ [EvLog (if run w args =? 0 then INFO else ERROR) msg]) /\
    (run w args = 0 <-> msg = LogLoadedToKafka).
Proof.
  unfold run, main, main_body, load_csv.
  destruct (files w (csv_file args)) as [[df | | | |] |]; cbn [read_csv].
  - rewrite returned_spec.
    set (loaded := [EvLog INFO (LogLoading (csv_file args));
                    EvReadCsv (csv_file args)] ++
                   [EvLog INFO (LogLoaded (len df));
                    EvLog INFO (LogColumns (columns df))]).
    destruct (send_to_kafka _ _ _ _) as [e t | r st].
    + exists (loaded ++ t), LogNotAllLoaded;
        cbn [exit_code fst snd is_FileNotFoundError is_ValueError
               is_Exception trace_of Z.eqb].
      rewrite <- app_assoc.
      split; [reflexivity | split; discriminate].
    + destruct (failed (st_frame st) =? 0).
      * exists (loaded ++ st_trace st), LogLoadedToKafka;
        cbn [exit_code fst snd is_FileNotFoundError is_ValueError
               is_Exception trace_of Z.eqb].
        rewrite <- app_assoc.
        split; [reflexivity | split; reflexivity].
      * exists (loaded ++ st_trace st), LogNotAllLoaded;
        cbn [exit_code fst snd is_FileNotFoundError is_ValueError
               is_Exception trace_of Z.eqb].
        rewrite <- app_assoc.
        split; [reflexivity | split; discriminate].
  - cbn; exists [EvLog INFO (LogLoading (csv_file args));
                 EvReadCsv (csv_file args)].
    eexists; split; [reflexivity | split; discriminate].
  - cbn; exists [EvLog INFO (LogLoading (csv_file args));
                 EvReadCsv (csv_file args)].
    eexists; split; [reflexivity | split; discriminate].
  - cbn; exists [EvLog INFO (LogLoading (csv_file args));
                 EvReadCsv (csv_file args)].
    eexists; split; [reflexivity | split; discriminate].
  - cbn; exists [EvLog INFO (LogLoading (csv_file args));
                 EvReadCsv (csv_file args)].
    eexists; split; [reflexivity | split; discriminate].
  - cbn; exists []; eexists; split; [reflexivity | split; discriminate].
Qed.

(* ----------------------------------------------------------------- *)
(** ** Every failure is logged *)

Lemma no_row_error_among_reports (br : Broker) (q : list entry) :
  count is_row_error (reports br q) = 0%nat.
Proof.
  apply count_none, Forall_map, Forall_forall; intros e _; reflexivity.
Qed.

Section Logged.

Variable br : Broker.

Lemma logged_poll (timeout : Z) : preserves logged (poll br timeout).
Proof.
  intros st (Hq & Hlog).
  rewrite poll_run by exact Hq; cbv zeta.
  unfold logged, quiet; cbn [st_producer st_trace st_frame queue].
  split.
  - eapply proj2, Forall_app. rewrite firstn_skipn. exact Hq.
  - rewrite !count_app, no_row_error_among_reports.
    change (count is_row_error [EvPoll]) with 0%nat.
    rewrite !Nat.add_0_r; exact Hlog.
Qed.

Lemma logged_flush : preserves logged (flush br).
Proof.
  intros st (Hq & Hlog).
  rewrite flush_run by exact Hq.
  unfold logged, quiet; cbn [st_producer st_trace st_frame queue].
  split; [constructor | ].
  rewrite !count_app, no_row_error_among_reports.
  change (count is_row_error [EvFlush]) with 0%nat.
  rewrite !Nat.add_0_r; exact Hlog.
Qed.

Lemma logged_logger (lvl : level) (msg : log_msg) :
  is_row_error (EvLog lvl msg) = false ->
  preserves logged (logger lvl msg).
Proof.
  intros Hmsg st (Hq & Hlog).
  unfold logged, quiet; cbn [logger emit snd st_producer st_trace st_frame].
  split; [exact Hq | ].
  rewrite count_app, count_cons, Hmsg.
  change (count is_row_error []) with 0%nat.
  rewrite !Nat.add_0_r; exact Hlog.
Qed.

Lemma logged_incr_successful : preserves logged incr_successful.
Proof. intros st Hst; exact Hst. Qed.

Lemma logged_produce (topic : pystr) (payload : pybytes) :
  preserves logged (produce br topic payload ack_callback).
Proof.
  intros st (Hq & Hlog).
  unfold produce, bind, get_producer; simpl.
  destruct (enqueue br _ _) as [pe |]; simpl;
    unfold logged, quiet; cbn [snd st_producer st_trace st_frame queue];
    rewrite count_app, count_cons; cbn [is_row_error];
    change (count is_row_error []) with 0%nat;
    rewrite !Nat.add_0_r; (split; [ | exact Hlog]).
  - exact Hq.
  - apply Forall_app; split; [exact Hq | ].
    constructor; [reflexivity | constructor].
Qed.

Variable topic : pystr.
Variable total_rows : Z.

Lemma logged_housekeeping (idx : label) :
  preserves logged (housekeeping br total_rows idx).
Proof.
  unfold housekeeping.
  apply preserves_bind; [apply preserves_lift | intros n].
  apply preserves_bind.
  { destruct (n mod 100 =? 0); [ | apply preserves_ret].
    apply preserves_bind; [apply logged_poll | intros; apply preserves_ret]. }
  intros _.
  apply preserves_bind; [apply preserves_lift | intros n'].
  destruct (n' mod 10000 =? 0); [ | apply preserves_ret].
  apply preserves_bind; [apply logged_flush | intros _].
  apply preserves_bind; [apply preserves_lift | intros n''].
  apply logged_logger; reflexivity.
Qed.

Lemma logged_send_row (idx : label) (row : Series) :
  preserves logged (send_row br topic total_rows idx row).
Proof.
  unfold send_row.
  apply preserves_bind; [apply preserves_lift | intros payload].
  apply preserves_bind; [apply logged_produce | intros _].
  apply preserves_bind; [apply logged_incr_successful | intros _].
  apply logged_housekeeping.
Qed.

(** The [except] clause writes the line and counts the failure together. *)
Lemma logged_on_row_error (idx : label) (e : exn) :
  preserves logged (on_row_error br idx e).
Proof.
  intros st (Hq & Hlog).
  set (st1 := {| st_df := st_df st; st_producer := st_producer st;
                 st_frame := {| successful := successful (st_frame st);
                                failed := failed (st_frame st) + 1 |};
                 st_trace := st_trace st ++
                             [EvLog ERROR (LogRowError idx e)] |}).
  assert (Hst1 : logged st1).
  { split; [exact Hq | ].
    subst st1; cbn [st_frame st_trace failed].
    rewrite count_app, count_cons; cbn [is_row_error].
    change (count is_row_error []) with 0%nat.
    rewrite Hlog; lia. }
  change (on_row_error br idx e st) with ((poll br 0 ;; ret tt) st1).
  apply preserves_bind; [apply logged_poll | intros _; apply preserves_ret | ].
  exact Hst1.
Qed.

Lemma logged_for_rows (its : list (label * Series)) :
  preserves logged (for_rows br topic total_rows its).
Proof.
  induction its as [| [idx row] its IH]; cbn [for_rows].
  - apply preserves_ret.
  - apply preserves_bind; [ | intros _; exact IH].
    apply preserves_try_except;
      [apply logged_send_row | intros e; apply logged_on_row_error].
Qed.

End Logged.

(** X10.  Every failure is logged: when [send_to_kafka] returns, [failed]
    is the number of ERROR lines the [except] clause of the loop wrote, one
    per failed row, also for a row counted as successful as well. *)
Theorem every_failure_is_logged (br : Broker) (df : DataFrame)
    (topic servers : pystr) :
  match send_to_kafka br df topic servers with
  | Ran _ st => failed (st_frame st) = Z.of_nat (count is_row_error (st_trace st))
  | NoProducer _ t => count is_row_error t = 0%nat
  end.
Proof.
  unfold send_to_kafka, Kafka.new.
  destruct (connect br (producer_config servers)) as [err |]; [reflexivity | ].
  set (st0 := {| st_df := df;
                 st_producer := {| queue := []; produced := 0;
                                   accepted := 0; polls := 0 |};
                 st_frame := {| successful := 0; failed := 0 |};
                 st_trace := [EvLog INFO (LogConnecting servers);
                              EvLog INFO (LogTopic topic)] |}).
  set (st1 := {| st_df := df; st_producer := st_producer st0;
                 st_frame := {| successful := 0; failed := 0 |};
                 st_trace := st_trace st0 ++ [EvLog INFO (LogStarting (len df))] |}).
  assert (Hst1 : logged st1).
  { split; [constructor | reflexivity]. }
  set (rest := (for_rows br topic (len df) (iterrows df) ;;
                logger INFO LogFlushing ;;
                flush br ;;
                f <- get_frame ;;
                logger INFO (LogCompleted (successful f) (failed f)) ;;
                if failed f >? 0 then
                  logger WARNING (LogRowsFailed (failed f)) ;;
                  ret false
                else ret true)).
  assert (Hrest : preserves logged rest).
  { subst rest.
    apply preserves_bind; [apply logged_for_rows | intros _].
    apply preserves_bind; [apply logged_logger; reflexivity | intros _].
    apply preserves_bind; [apply logged_flush | intros _].
    apply preserves_bind; [intros st Hst; exact Hst | intros f].
    apply preserves_bind; [apply logged_logger; reflexivity | intros _].
    destruct (failed f >? 0); [ | apply preserves_ret].
    apply preserves_bind;
      [apply logged_logger; reflexivity | intros _; apply preserves_ret]. }
  change (send_rows br topic st0) with (rest st1).
  specialize (Hrest st1 Hst1).
  destruct (rest st1) as [r st]; exact (proj2 Hrest).
Qed.
